(** * dao-couchdb: the DAO base class of [dao.js]

    A shallow embedding of the class [DAO] (its constructor, [validate],
    [create], [retrieve], [update], [delete], [list], [findOne], [exists],
    [count] and the static [touch]) together with the part of the JavaScript
    runtime the class relies on: values, a heap of mutable objects, the wall
    clock behind [Date.now()], exceptions, and the document store handle
    [this.db] seen as an external collaborator whose calls are logged. *)

From Stdlib Require Import ZArith QArith Qcanon Ascii.
From stdpp Require Import base numbers strings list gmap.

Local Open Scope Z_scope.
Local Open Scope string_scope.

(** ** JavaScript strings *)

(** A JavaScript string is a sequence of 16-bit code units. It is kept here
    as a byte string in which every code unit stands on its own, written as
    UTF-8 writes the code point of that number: one byte below 128, two
    bytes below 2048, three bytes from there on. The texts of the class
    (member names, messages) are ASCII and are their own bytes; equality,
    emptiness and concatenation of strings are those of the byte strings. A
    surrogate is three bytes, the first of them 237; it is a low surrogate
    (0xDC00 to 0xDFFF) when the second byte is 176 or more. Only byte
    strings of this make stand for a string of the program. *)
Definition continuation (c : ascii) : bool :=
  (128 <=? N_of_ascii c)%N && (N_of_ascii c <? 192)%N.

(** [s.length]: the bytes that start a code unit. *)
Fixpoint code_units (s : string) : nat :=
  match s with
  | EmptyString => 0
  | String c t => (if continuation c then 0 else 1) + code_units t
  end.

(** The matches of [/[\uDC00-\uDFFF]/g] in [s]. *)
Fixpoint low_surrogates (s : string) : nat :=
  match s with
  | EmptyString => 0
  | String c t =>
      match t with
      | String d _ =>
          if (N_of_ascii c =? 237)%N && (176 <=? N_of_ascii d)%N
             && (N_of_ascii d <? 192)%N
          then 1 else 0
      | EmptyString => 0
      end + low_surrogates t
  end.

(** ** JavaScript values *)

(** Objects live on a heap and are named by their location, so that two
    names of one object alias, as in JavaScript. *)
Definition loc := positive.

(** A number is an IEEE double. The code only asks whether a number is an
    integer ([type: 'integer'] of the schema), whether it is truthy, and
    stores [Math.floor(Date.now() / 1000)], so the integers are kept apart:
    [Frac q] stands for a finite double that is not an integer. *)
Inductive number :=
| Int (z : Z)
| Frac (q : Qc)
| NaN
| Infinity (negative : bool).

Inductive value :=
| VUndefined
| VNull
| VBool (b : bool)
| VNum (n : number)
| VStr (s : string)
| VRef (l : loc).

#[global] Instance number_eq_dec : EqDecision number.
Proof. solve_decision. Defined.

#[global] Instance value_eq_dec : EqDecision value.
Proof. solve_decision. Defined.

(** What [Array.isArray], [instanceof Date] and [typeof] tell apart. *)
Inductive kind := Plain | Array | Date | Function.

#[global] Instance kind_eq_dec : EqDecision kind.
Proof. solve_decision. Defined.

(** An object: its kind and its own enumerable properties. A property may
    hold [undefined]; reading a missing property gives [undefined] too. *)
Record object := Object { kind_of : kind; props : gmap string value }.

Definition typeof (h : gmap loc object) (v : value) : string :=
  match v with
  | VUndefined => "undefined"
  | VNull => "object"
  | VBool _ => "boolean"
  | VNum _ => "number"
  | VStr _ => "string"
  | VRef l =>
      match h !! l with
      | Some (Object Function _) => "function"
      | _ => "object"
      end
  end.

(** ToBoolean. *)
Definition truthy (v : value) : bool :=
  match v with
  | VUndefined | VNull => false
  | VBool b => b
  | VNum (Int z) => negb (Z.eqb z 0)
  | VNum NaN => false
  | VNum _ => true
  | VStr s => negb (String.eqb s "")
  | VRef _ => true
  end.

(** The operator [===]: [NaN] differs from itself, objects are compared by
    identity. *)
Definition strict_eq (a b : value) : bool :=
  match a, b with
  | VNum NaN, _ | _, VNum NaN => false
  | _, _ => bool_decide (a = b)
  end.

(** ** The document store, seen from the class *)

(** The error a store call rejects with; [retrieve] reads [statusCode]. *)
Record store_error := StoreErr { statusCode : value; reason : string }.

(** The options object of a view query: its members, and under [key] the
    rest-parameter array of [findOne], [exists] and [count] when they attach
    it ([None]: absent or [undefined]). That array is made by the call and
    seen by nobody else, so it is kept by value. *)
Record view_opts := ViewOpts {
  members : gmap string value;
  key : option (list value) }.

(** A row of a view response, [{key, value, doc}]. *)
Record row := Row { row_key : list value; row_value : value; row_doc : value }.

(** What [insert] resolves to, [{ok, id, rev}]; the class reads [rev]. *)
Record insert_response := InsertResponse { res_id : value; res_rev : value }.

(** The calls the class issues on [this.db]. An inserted document is logged
    with the body it had when it was sent. *)
Inductive call :=
| Get (id : string)
| Insert (doc : value) (body : option object)
| Destroy (id : string) (rev : value)
| PartitionedView (partition ddoc view : string) (opts : view_opts).

(** The handle [this.db]. The store is outside the program: each answer is a
    function of the calls made so far and of the call itself, which covers
    any single run against any store. *)
Record DB := {
  db_get : list call -> string -> store_error + value;
  db_insert :
    list call -> value -> option object -> store_error + insert_response;
  db_destroy : list call -> string -> value -> store_error + value;
  db_partitionedView :
    list call -> string -> string -> string -> view_opts ->
    store_error + list row }.

(** ** The world a call runs in *)

(** [now] is the reading the next [Date.now()] gives, in milliseconds since
    the epoch, and [ticks n] what the wall clock moves by between the reads
    [n] and [n+1] from here on: it is negative when the clock is set back
    in between. [calls] is the log of store calls, oldest first. *)
Record world := World {
  heap : gmap loc object;
  now : Z;
  ticks : nat -> Z;
  calls : list call }.

(** What is thrown: a failed [assert], a TypeError of the language, the
    SyntaxError of [new RegExp] on a source that is no pattern, and a
    rejection of the store. *)
Inductive error :=
| AssertionError (message : string)
| TypeError
| SyntaxError
| StoreError (e : store_error).

(** A computation may change the world and either returns or throws; what it
    did before throwing stays done. *)
Definition M (A : Type) : Type := world -> (error + A) * world.

#[global] Instance M_ret : MRet M := fun A x w => (inr x, w).

#[global] Instance M_bind : MBind M := fun A B f m w =>
  match m w with
  | (inr x, w') => f x w'
  | (inl e, w') => (inl e, w')
  end.

#[global] Instance M_throw : MThrow error M := fun A e w => (inl e, w).

(** Node's [assert(value, message)]. *)
Definition assert (c : bool) (message : string) : M unit :=
  if c then mret tt else mthrow (AssertionError message).

(** [if (c) { body }] with no [else]. *)
Definition when (c : bool) (body : M unit) : M unit :=
  if c then body else mret tt.

(** The heap as it is now. *)
Definition read_heap : M (gmap loc object) := fun w => (inr (heap w), w).

(** [typeof v === t], on the heap as it is when the test runs. *)
Definition typeof_is (v : value) (t : string) : M bool := fun w =>
  (inr (String.eqb (typeof (heap w) v) t), w).

(** [v[k]]: reading a property of [null] or [undefined] is a TypeError. The
    class reads properties only behind [typeof v === 'object'], so the
    members of primitive wrappers are left out. *)
Definition get_prop (v : value) (k : string) : M value := fun w =>
  match v with
  | VRef l =>
      match heap w !! l with
      | Some o => (inr (default VUndefined (props o !! k)), w)
      | None => (inl TypeError, w)
      end
  | VUndefined | VNull => (inl TypeError, w)
  | _ => (inr VUndefined, w)
  end.

(** [v[k] = x] in strict code (a class body). *)
Definition set_prop (v : value) (k : string) (x : value) : M unit := fun w =>
  match v with
  | VRef l =>
      match heap w !! l with
      | Some o =>
          (inr tt,
           World (<[l := Object (kind_of o) (<[k := x]> (props o))]> (heap w))
                 (now w) (ticks w) (calls w))
      | None => (inl TypeError, w)
      end
  | _ => (inl TypeError, w)
  end.

(** [Date.now()]. *)
Definition Date_now : M Z := fun w =>
  (inr (now w),
   World (heap w) (now w + ticks w 0%nat) (fun n => ticks w (S n))
         (calls w)).

(** [Math.floor(t / 1000)] for an integer [t]. *)
Definition epoch_seconds (t : Z) : value := VNum (Int (t / 1000)).

(** [try { body } catch (err) { handler }]. *)
Definition try_catch {A} (body : M A) (handler : error -> M A) : M A := fun w =>
  match body w with
  | (inl e, w') => handler e w'
  | r => r
  end.

(** The own enumerable properties an object spread [...v] copies. *)
Definition own_props (v : value) : M (gmap string value) := fun w =>
  match v with
  | VRef l =>
      match heap w !! l with
      | Some o => (inr (props o), w)
      | None => (inl TypeError, w)
      end
  | _ => (inr ∅, w)
  end.

(** An object literal: a new plain object at a location not in use. *)
Definition new_object (ps : gmap string value) : M value := fun w =>
  let l := fresh (dom (heap w)) in
  (inr (VRef l),
   World (<[l := Object Plain ps]> (heap w)) (now w) (ticks w) (calls w)).

(** [typeof v === 'object']: [null], and every object that is no function. *)
Definition is_object (h : gmap loc object) (v : value) : bool :=
  match v with
  | VNull => true
  | VRef l =>
      match h !! l with
      | Some (Object Function _) => false
      | _ => true
      end
  | _ => false
  end.

(** A string as a template literal splices it. Every template of the class
    is reached only behind [typeof id === 'string'], so the conversion of
    other values to strings is left out. *)
Definition string_value (v : value) : string :=
  match v with
  | VStr s => s
  | _ => ""
  end.

(** A store call: the call is logged, and a rejection is thrown where the
    class awaits it. *)
Definition store_call {A} (c : call) (answer : list call -> store_error + A)
  : M A := fun w =>
  let w' := World (heap w) (now w) (ticks w) (calls w ++ [c]) in
  match answer (calls w) with
  | inl e => (inl (StoreError e), w')
  | inr x => (inr x, w')
  end.

(** ** The schema validator (package jsonschema)

    The library is not part of the repository; what follows is what its
    keywords [type], [minLength], [pattern], [properties] and [required] do
    on the three schemas the class registers. A keyword other than
    [required] ignores an [undefined] instance, and [minLength] and
    [pattern] ignore what is not a string. *)

Record ValidationError := VError {
  property : string;
  name : string;
  argument : string }.

Record ValidatorResult := VResult { errors : list ValidationError }.

(** The getter [valid]: no error was recorded. *)
Definition valid (vr : ValidatorResult) : bool :=
  match errors vr with
  | [] => true
  | _ :: _ => false
  end.

(** [new Validator()]. Its patterns are run by the regular expressions of
    the JavaScript engine: [regexp source] is the regular expression the
    library makes of a pattern source, [None] when the source is no pattern
    and the engine throws a SyntaxError, and otherwise the test whether a
    string matches. *)
Record Validator := { regexp : string -> option (string -> bool) }.

(** [source] is a pattern and [s] matches it. *)
Definition regexp_test (V : Validator) (source s : string) : bool :=
  match regexp V source with
  | Some matches => matches s
  | None => false
  end.

(** The length [minLength] compares with: the library takes the number of
    low surrogates off the number of code units, so that a surrogate pair
    counts once and a low surrogate on its own not at all. *)
Definition minLength_length (s : string) : nat :=
  code_units s - low_surrogates s.

(** [{id: '/NonEmptyString', type: 'string', minLength: 1}]. *)
Definition NonEmptyString (path : string) (v : value) : list ValidationError :=
  match v with
  | VUndefined => []
  | VStr s =>
      if (minLength_length s <? 1)%nat
      then [VError path "minLength" "1"]
      else []
  | _ => [VError path "type" "string"]
  end.

(** [{id: '/DocumentID', type: 'string', pattern: `^${this.type}:`}]. The
    type is spliced into the source as it is; the pattern is made when a
    string is tested, and [None] is the SyntaxError thrown then. *)
Definition DocumentID (V : Validator) (type : string) (path : string)
    (v : value) : option (list ValidationError) :=
  let pattern := "^" ++ type ++ ":" in
  match v with
  | VUndefined => Some []
  | VStr s =>
      match regexp V pattern with
      | Some matches =>
          Some (if matches s then [] else [VError path "pattern" pattern])
      | None => None
      end
  | _ => Some [VError path "type" "string"]
  end.

(** [{type: 'integer'}]. *)
Definition integer (path : string) (v : value) : list ValidationError :=
  match v with
  | VUndefined | VNum (Int _) => []
  | _ => [VError path "type" "integer"]
  end.

(** [required: [...]]: one error for each listed member that is
    [undefined]. *)
Definition required (ps : gmap string value) (members : list string)
  : list ValidationError :=
  flat_map (fun n =>
    match default VUndefined (ps !! n) with
    | VUndefined => [VError "instance" "required" n]
    | _ => []
    end) members.

(** The class field [schema], [{id: '/Document', type: 'object', properties,
    required, additionalProperties: true}]: the keywords run in the order
    they are written, [properties] member by member, [_id] first. The
    outcome is the list of errors, or [None] when the pattern of [_id] threw
    its SyntaxError. *)
Definition Document (V : Validator) (type : string) (h : gmap loc object)
    (doc : value) : option (list ValidationError) :=
  match doc with
  | VRef l =>
      match h !! l with
      | Some (Object Plain ps) =>
          let member k := default VUndefined (ps !! k) in
          match DocumentID V type "instance._id" (member "_id") with
          | Some id_errors =>
              Some (id_errors
                    ++ NonEmptyString "instance._rev" (member "_rev")
                    ++ NonEmptyString "instance.c_by" (member "c_by")
                    ++ integer "instance.c_at" (member "c_at")
                    ++ NonEmptyString "instance.m_by" (member "m_by")
                    ++ integer "instance.m_at" (member "m_at")
                    ++ required ps ["_id"; "c_by"; "c_at"; "m_by"; "m_at"])%list
          | None => None
          end
      | _ => Some [VError "instance" "type" "object"]
      end
  | _ => Some [VError "instance" "type" "object"]
  end.

Module DAO.

(** An instance as the constructor leaves it: [this.type] (a string, the
    constructor asserts it), [this.db] and [this.docValidator]. *)
Record t := { type : string; db : DB; docValidator : Validator }.

(** [`${this.type}:${id}`]. *)
Definition qualified (this : t) (id : value) : string :=
  type this ++ ":" ++ string_value id.

(** [constructor(type, db)]. The argument [db] is a JavaScript value; what
    the store behind it answers is [handle], and [engine] is the validator
    made by [new Validator()]: the constructor looks into neither. The two
    schemas it registers are [NonEmptyString] and [DocumentID] above. *)
Definition constructor (type db : value) (handle : DB) (engine : Validator)
  : M t :=
  c ← typeof_is type "string"; assert c "bad dao type name";;
  c ← typeof_is db "object"; assert c "bad db type";;
  replicate ← get_prop db "replicate";
  c ← typeof_is replicate "function"; assert c "bad db instance";;
  mret {| type := string_value type; db := handle; docValidator := engine |}.

(** [validate(doc)]. *)
Definition validate (this : t) (doc : value) : M ValidatorResult :=
  c ← typeof_is doc "object"; assert c "bad document";;
  h ← read_heap;
  match Document (docValidator this) (type this) h doc with
  | Some es => mret (VResult es)
  | None => mthrow SyntaxError
  end.

(** [this.db.insert(doc)], awaited. *)
Definition insert (this : t) (doc : value) : M insert_response := fun w =>
  let body := match doc with VRef l => heap w !! l | _ => None end in
  store_call (Insert doc body) (fun cs => db_insert (db this) cs doc body) w.

(** [async create(doc)]. *)
Definition create (this : t) (doc : value) : M value :=
  vr ← validate this doc;
  assert (valid vr) "invalid document";;
  _rev ← get_prop doc "_rev";
  assert (negb (truthy _rev)) "document may already exist";;
  res ← insert this doc;
  ps ← own_props doc;
  new_object (ps ∪ {[ "_rev" := res_rev res ]}).

(** [async retrieve(id)]. *)
Definition retrieve (this : t) (id : value) : M value :=
  c ← typeof_is id "string"; assert (c && truthy id) "bad document id";;
  let _id := qualified this id in
  try_catch
    (store_call (Get _id) (fun cs => db_get (db this) cs _id))
    (fun err =>
       match err with
       | StoreError e =>
           if negb (strict_eq (statusCode e) (VNum (Int 404)))
           then mthrow err
           else mret VNull
       | _ => mthrow err
       end).

(** [async update(id, doc)]. *)
Definition update (this : t) (id doc : value) : M value :=
  c ← typeof_is id "string"; assert (c && truthy id) "bad document id";;
  vr ← validate this doc;
  assert (valid vr) "invalid document";;
  _id ← get_prop doc "_id";
  assert (strict_eq _id (VStr (qualified this id))) "document id mismatch";;
  _rev ← get_prop doc "_rev";
  assert (truthy _rev) "document must already exist";;
  res ← insert this doc;
  ps ← own_props doc;
  new_object (<[ "_rev" := res_rev res ]> ps).

(** [async delete(id, doc)]. *)
Definition delete (this : t) (id doc : value) : M value :=
  c ← typeof_is id "string"; assert (c && truthy id) "bad document id";;
  c ← typeof_is doc "object"; assert c "bad document";;
  _id ← get_prop doc "_id";
  c ← typeof_is _id "string"; assert (c && truthy _id) "invalid document";;
  assert (strict_eq _id (VStr (qualified this id))) "document id mismatch";;
  _rev ← get_prop doc "_rev";
  assert (truthy _rev) "document must already exist";;
  store_call (Destroy (string_value _id) _rev)
    (fun cs => db_destroy (db this) cs (string_value _id) _rev).

(** [this.db.partitionedView(this.type, this.type, viewName, opts)],
    awaited; the result is its [rows]. *)
Definition partitionedView (this : t) (viewName : value) (opts : view_opts)
  : M (list row) :=
  let v := string_value viewName in
  store_call (PartitionedView (type this) (type this) v opts)
    (fun cs => db_partitionedView (db this) cs (type this) (type this) v opts).

(** [async list(viewName, opts = {})]. The merged options literal is handed
    to the store and dropped: it is logged by its members, among them
    whatever [key] the caller put into [opts]; the slot for the key array of
    [findOne], [exists] and [count] stays empty. *)
Definition list_ (this : t) (viewName opts : value) : M (list value) :=
  opts ← match opts with
         | VUndefined => new_object ∅
         | _ => mret opts
         end;
  c ← typeof_is viewName "string"; assert (c && truthy viewName) "invalid view";;
  c ← typeof_is opts "object"; assert c "invalid options";;
  ps ← own_props opts;
  let opts := ps ∪ {[ "reduce" := VBool false; "include_docs" := VBool true ]} in
  rows ← partitionedView this viewName (ViewOpts opts None);
  mret (map (fun row =>
               if truthy (default VUndefined (opts !! "include_docs"))
               then row_doc row
               else row_value row) rows).

(** [async findOne(viewName, ...key)]. [Array.isArray(key)] holds of a rest
    parameter. *)
Definition findOne (this : t) (viewName : value) (key : list value)
  : M value :=
  c ← typeof_is viewName "string"; assert (c && truthy viewName) "invalid view";;
  assert (bool_decide (0 < length key)%nat) "invalid key";;
  rows ← partitionedView this viewName
           (ViewOpts {[ "reduce" := VBool false; "include_docs" := VBool true;
                        "limit" := VNum (Int 2) ]} (Some key));
  assert (bool_decide (length rows ≤ 1)%nat) "key is not unique";;
  mret (match rows with
        | r :: _ => row_doc r
        | [] => VNull
        end).

(** [async exists(viewName, ...key)]. *)
Definition exists_ (this : t) (viewName : value) (key : list value)
  : M value :=
  c ← typeof_is viewName "string"; assert (c && truthy viewName) "invalid view";;
  assert (bool_decide (0 < length key)%nat) "invalid key";;
  rows ← partitionedView this viewName
           (ViewOpts {[ "reduce" := VBool false; "include_docs" := VBool false;
                        "limit" := VNum (Int 1) ]} (Some key));
  mret (VBool (negb (negb (bool_decide (length rows ≠ 0%nat))))).

(** [async count(viewName, ...key)]. The rows of a response are a list
    here, so [assert(Array.isArray(res.rows))] always passes. *)
Definition count (this : t) (viewName : value) (key : list value)
  : M value :=
  c ← typeof_is viewName "string"; assert (c && truthy viewName) "invalid view";;
  rows ← partitionedView this viewName
           (ViewOpts {[ "reduce" := VBool true ]}
              (if bool_decide (length key ≠ 0%nat) then Some key else None));
  mret (match rows with
        | r :: _ => row_value r
        | [] => VNum (Int 0)
        end).

(** [static touch(doc, userName)]. *)
Definition touch (doc userName : value) : M value :=
  c ← typeof_is doc "object"; assert c "bad document";;
  c ← typeof_is userName "string"; assert c "bad user name";;
  assert (truthy userName) "invalid user name";;
  c_by ← get_prop doc "c_by";
  c ← typeof_is c_by "undefined";
  when c (set_prop doc "c_by" userName;;
          t ← Date_now;
          set_prop doc "c_at" (epoch_seconds t));;
  set_prop doc "m_by" userName;;
  t ← Date_now;
  set_prop doc "m_at" (epoch_seconds t);;
  mret doc.

End DAO.

(** ** The store's view queries

    What a store does with the options [findOne], [exists] and [count] send
    when [reduce] is off: the [key] they attach keeps the rows with exactly
    that key, [limit] keeps the first rows, and a row carries its document
    only under [include_docs]. A [key] that a caller of [list] puts into its
    options is a member like any other and is not looked at here. *)
Definition option_of (opts : view_opts) (k : string) : value :=
  default VUndefined (members opts !! k).

Definition matching (rows : list row) (opts : view_opts) : list row :=
  match key opts with
  | Some k => filter (fun r => row_key r = k) rows
  | None => rows
  end.

Definition select (rows : list row) (opts : view_opts) : list row :=
  let limited :=
    match option_of opts "limit" with
    | VNum (Int n) => take (Z.to_nat n) (matching rows opts)
    | _ => matching rows opts
    end in
  if truthy (option_of opts "include_docs")
  then limited
  else map (fun r => Row (row_key r) (row_value r) VUndefined) limited.

(** The built-in reduction [_count]: the number of matching rows, in one
    row, and no row at all when nothing matches. *)
Definition reduce_count (rows : list row) (opts : view_opts) : list row :=
  match matching rows opts with
  | [] => []
  | _ :: _ =>
      [Row [] (VNum (Int (Z.of_nat (length (matching rows opts))))) VUndefined]
  end.

(** A store answers the view queries of a table [views] when each query
    whose options have no [key] member of the caller's own, as [list] would
    pass one on, is answered from the rows the table holds for that view. *)
Definition answers_views (d : DB)
    (views : string -> string -> string -> list row) : Prop :=
  forall cs p dd v opts,
    members opts !! "key" = None ->
    db_partitionedView d cs p dd v opts =
    inr (if truthy (option_of opts "reduce")
         then reduce_count (views p dd v) opts
         else select (views p dd v) opts).

(** ** The error kinds of the interface

    Every check of the class is a Node [assert]; the kinds are told apart
    by the message of the assertion. *)
Inductive error_kind :=
| InvalidArgument
| InvalidDocument
| AlreadyExists
| IdentityMismatch
| PreconditionFailed
| NotUnique.

#[global] Instance error_kind_eq_dec : EqDecision error_kind.
Proof. solve_decision. Defined.

Definition kind_of_message (m : string) : option error_kind :=
  if bool_decide (m ∈ ["bad dao type name"; "bad db type"; "bad db instance";
                       "bad document"; "bad document id"; "invalid view";
                       "invalid options"; "invalid key"; "bad user name";
                       "invalid user name"])
  then Some InvalidArgument
  else if String.eqb m "invalid document" then Some InvalidDocument
  else if String.eqb m "document may already exist" then Some AlreadyExists
  else if String.eqb m "document id mismatch" then Some IdentityMismatch
  else if String.eqb m "document must already exist" then Some PreconditionFailed
  else if String.eqb m "key is not unique" then Some NotUnique
  else None.

Definition kind_of_error (e : error) : option error_kind :=
  match e with
  | AssertionError m => kind_of_message m
  | TypeError | SyntaxError | StoreError _ => None
  end.

(** The outcome of a run is a failure of kind [k]. *)
Definition fails_with {A} (r : (error + A) * world) (k : error_kind) : Prop :=
  match r.1 with
  | inl e => kind_of_error e = Some k
  | inr _ => False
  end.

(** [doc[k]] read off a heap, [undefined] where there is nothing to read. *)
Definition field (h : gmap loc object) (doc : value) (k : string) : value :=
  match doc with
  | VRef l =>
      match h !! l with
      | Some o => default VUndefined (props o !! k)
      | None => VUndefined
      end
  | _ => VUndefined
  end.

(** [typeof id === 'string' && id], the test on an id or a view name. *)
Definition nonempty_string (v : value) : bool :=
  match v with
  | VStr s => negb (String.eqb s "")
  | _ => false
  end.

(** [doc] passes the schema of [this] on the heap [h]: validation comes to
    its end and reports no error. *)
Definition passes (this : DAO.t) (h : gmap loc object) (doc : value) : bool :=
  match Document (DAO.docValidator this) (DAO.type this) h doc with
  | Some es => valid (VResult es)
  | None => false
  end.

(** Validation of [doc] does not come to an end: the pattern of [_id] is
    made from a type that is no pattern source, and throws. *)
Definition throws (this : DAO.t) (h : gmap loc object) (doc : value) : bool :=
  match Document (DAO.docValidator this) (DAO.type this) h doc with
  | Some _ => false
  | None => true
  end.

(** What [create] and [update] are left with when [doc] does not pass. *)
Definition not_passed (this : DAO.t) (h : gmap loc object) (doc : value)
  : error :=
  if throws this h doc then SyntaxError
  else AssertionError "invalid document".

(** From [w] on the wall clock is not set back. *)
Definition clock_forward (w : world) : Prop := forall n, 0 <= ticks w n.

(** The four audit members [touch] writes. *)
Definition stamps : list string := ["c_by"; "c_at"; "m_by"; "m_at"].

(** The world [touch] leaves when it stamps the object [o] at [l]. *)
Definition touched (w : world) (l : loc) (o : object) (u : string) : world :=
  let first :=
    bool_decide (default VUndefined (props o !! "c_by") = VUndefined) in
  let t := if first then now w + ticks w 0%nat else now w in
  let ps :=
    if first
    then <["c_at" := epoch_seconds (now w)]> (<["c_by" := VStr u]> (props o))
    else props o in
  World (<[l := Object (kind_of o)
                  (<["m_at" := epoch_seconds t]> (<["m_by" := VStr u]> ps))]>
           (heap w))
        (t + ticks w (if first then 1 else 0)%nat)
        (fun n => ticks w (if first then S (S n) else S n))
        (calls w).

(** The world after the store call [c] was logged. *)
Definition logged (w : world) (c : call) : world :=
  World (heap w) (now w) (ticks w) (calls w ++ [c]).

(** A validation or argument error: an error of one of the kinds raised by
    a check on the arguments, which [NotUnique] is not. *)
Definition validation_error (e : error) : Prop :=
  exists k, kind_of_error e = Some k /\ k <> NotUnique.

(** [m] raises its validation errors before any store call. *)
Definition before_store {A} (m : M A) : Prop :=
  forall w e w', m w = (inl e, w') -> validation_error e -> calls w' = calls w.

(** [m] raises no validation error at all. *)
Definition late {A} (m : M A) : Prop :=
  forall w e w', m w = (inl e, w') -> ~ validation_error e.

(** ** A running example: the fixtures of [dao.test.js] *)

Module Example.

(** A stand-in for the engine on the sources the examples use. A source
    [^literal], the literal made of letters, digits, [:], [-] and [_], is the
    test for that prefix, as in every engine. The one other source of the
    examples is [^(:], which no engine takes for its open group; the
    stand-in turns down whatever is not of the first shape. *)
Definition literal (c : ascii) : bool :=
  let n := N_of_ascii c in
  ((48 <=? n) && (n <=? 58) || (65 <=? n) && (n <=? 90)
   || (97 <=? n) && (n <=? 122) || (n =? 45) || (n =? 95))%N.

Definition prefix_engine : Validator :=
  {| regexp source :=
       match source with
       | String "^"%char lit =>
           if forallb literal (String.list_ascii_of_string lit)
           then Some (String.prefix lit)
           else None
       | _ => None
       end |}.

Definition known (n : string) : value := VStr ("WIDGET:known-" ++ n).

(** The view [by-status] over the three known documents. *)
Definition views (p dd v : string) : list row :=
  if String.eqb v "by-status" then
    [ Row [VStr "ACTIVE"] (VNum (Int 1)) (known "1");
      Row [VStr "ACTIVE"] (VNum (Int 1)) (known "2");
      Row [VStr "INACTIVE"] (VNum (Int 1)) (known "3") ]
  else [].

(** A store that holds no document, accepts every write, and answers the
    view queries from [views]. *)
Definition couch : DB :=
  {| db_get _ _ := inl (StoreErr (VNum (Int 404)) "missing");
     db_insert _ _ _ := inr (InsertResponse (VStr "id") (VStr "1-967a00"));
     db_destroy _ _ _ := inr (VStr "2-eec205");
     db_partitionedView _ p dd v opts :=
       inr (if truthy (option_of opts "reduce")
            then reduce_count (views p dd v) opts
            else select (views p dd v) opts) |}.

Definition widget : DAO.t :=
  {| DAO.type := "WIDGET"; DAO.db := couch; DAO.docValidator := prefix_engine |}.

Definition plain (fields : list (string * value)) : object :=
  Object Plain (list_to_map fields).

(** A world with a few documents on the heap, one millisecond before the
    second 2 of the epoch, the clock advancing by one millisecond a read. *)
Definition world0 : world :=
  {| heap := {[ 1%positive := plain [];
                2%positive := plain [("_rev", VStr "1-abc")];
                3%positive := plain [("_id", VStr "WIDGET:test-1");
                                     ("_rev", VStr "1-123456789");
                                     ("c_by", VStr "admin"); ("c_at", VNum (Int 1));
                                     ("m_by", VStr "admin"); ("m_at", VNum (Int 1));
                                     ("test", VStr "initial-value")];
                4%positive := plain [("_id", VStr "WIDGET:test-1");
                                     ("c_by", VStr "admin"); ("c_at", VNum (Int 1));
                                     ("m_by", VStr "admin"); ("m_at", VNum (Int 1))] ]};
     now := 1999;
     ticks := fun _ => 1;
     calls := [] |}.

(** The same world at the second 2, the clock then set back by two seconds
    at every read. *)
Definition world_set_back : world :=
  {| heap := heap world0; now := 2000; ticks := fun _ => -2000; calls := [] |}.

(** An instance whose type is no pattern source. *)
Definition unbalanced : DAO.t :=
  {| DAO.type := "("; DAO.db := couch; DAO.docValidator := prefix_engine |}.

End Example.

(** ** What an operation may leave behind *)

(** A store call of [this] stays within its type: a read or a delete names
    [type:id] for a non-empty [id], a view query has the type as partition
    and as design document, and an inserted document is a plain object whose
    [_id] is a string the pattern of the schema accepts. *)
Definition scoped (this : DAO.t) (c : call) : Prop :=
  match c with
  | Get id | Destroy id _ =>
      exists s, s <> "" /\ id = DAO.type this ++ ":" ++ s
  | PartitionedView p dd _ _ => p = DAO.type this /\ dd = DAO.type this
  | Insert doc body =>
      exists l ps s,
        doc = VRef l /\ body = Some (Object Plain ps) /\
        default VUndefined (ps !! "_id") = VStr s /\
        regexp_test (DAO.docValidator this) ("^" ++ DAO.type this ++ ":") s
        = true
  end.

(** From [w] to [w'] no object of the heap was changed or dropped, the clock
    was not read, and at most one store call was made, within the type. *)
Definition footprint (this : DAO.t) (w w' : world) : Prop :=
  heap w ⊆ heap w' /\
  now w' = now w /\
  exists cs, calls w' = (calls w ++ cs)%list /\
             (length cs <= 1)%nat /\ Forall (scoped this) cs.

(** The audit members of the object at [l] are in order: [c_by] is set,
    [c_at] and [m_at] are seconds, creation is not after modification, and
    modification is not in the future. *)
Definition audited (w : world) (l : loc) : Prop :=
  exists a m,
    field (heap w) (VRef l) "c_by" <> VUndefined /\
    field (heap w) (VRef l) "c_at" = VNum (Int a) /\
    field (heap w) (VRef l) "m_at" = VNum (Int m) /\
    a <= m /\ m <= now w / 1000.

(** [typeof v === 'function']. *)
Definition is_function (h : gmap loc object) (v : value) : bool :=
  match v with
  | VRef l =>
      match h !! l with
      | Some (Object Function _) => true
      | _ => false
      end
  | _ => false
  end.

(** The defaults of [list]. *)
Definition list_defaults : gmap string value :=
  {[ "reduce" := VBool false; "include_docs" := VBool true ]}.

(** The entries [list] returns for the rows of an answer. *)
Definition list_entries (sent : gmap string value) (rows : list row)
  : list value :=
  map (fun row =>
         if truthy (default VUndefined (sent !! "include_docs"))
         then row_doc row
         else row_value row) rows.

(** The rejection, if any, with which the store answers the call [c] after
    the calls [cs]. *)
Definition rejection (d : DB) (cs : list call) (c : call)
  : option store_error :=
  match c with
  | Get id =>
      match db_get d cs id with inl e => Some e | inr _ => None end
  | Insert doc body =>
      match db_insert d cs doc body with inl e => Some e | inr _ => None end
  | Destroy id rev =>
      match db_destroy d cs id rev with inl e => Some e | inr _ => None end
  | PartitionedView p dd v opts =>
      match db_partitionedView d cs p dd v opts with
      | inl e => Some e
      | inr _ => None
      end
  end.

(** A new plain object with the members [ps], at the first free location. *)
Definition allocated (w : world) (ps : gmap string value) : world :=
  World (<[fresh (dom (heap w)) := Object Plain ps]> (heap w))
        (now w) (ticks w) (calls w).

(** The run [r] from [w] made the store call [c], within the type of
    [this]: a rejection of the store is its outcome, unchanged, and otherwise
    the world is [w] with the call logged and at most one new object. *)
Definition sent (this : DAO.t) (w : world) {A} (r : (error + A) * world)
    (c : call) : Prop :=
  scoped this c /\
  match rejection (DAO.db this) (calls w) c with
  | Some e => r = (inl (StoreError e), logged w c)
  | None => r.2 = logged w c \/ exists ps, r.2 = allocated (logged w c) ps
  end.

(** The own members of what [list] was given as options, and the world in
    which it goes on: a missing argument stands for a new empty object. *)
Definition members_of (h : gmap loc object) (v : value) : gmap string value :=
  match v with
  | VRef l =>
      match h !! l with
      | Some o => props o
      | None => ∅
      end
  | _ => ∅
  end.

Definition defaulted (w : world) (opts : value) : world :=
  match opts with
  | VUndefined => allocated w ∅
  | _ => w
  end.

(** The outcome [r] of a run from [w] whose store call [c] was rejected
    with [e] is that rejection. *)
Definition rethrown (w : world) (c : call) (e : store_error) {A}
    (r : (error + A) * world) : Prop :=
  calls r.2 = (calls w ++ [c])%list -> r.1 = inl (StoreError e).

(** A store in which every document exists already: an insert is rejected
    as a conflict, everything else is answered as by [Example.couch]. *)
Definition conflicting : DB :=
  {| db_get := db_get Example.couch;
     db_insert _ _ _ := inl (StoreErr (VNum (Int 409)) "conflict");
     db_destroy := db_destroy Example.couch;
     db_partitionedView := db_partitionedView Example.couch |}.

Definition contested : DAO.t :=
  {| DAO.type := "WIDGET"; DAO.db := conflicting;
     DAO.docValidator := Example.prefix_engine |}.

(** * Verification *)

(** Closes a goal [fails_with (inl e, w) k] on a known error [e]. *)
Ltac fails := unfold fails_with; cbn [fst]; vm_compute; reflexivity.

(** ** Running a computation, one statement at a time *)

Section Run.
Context {A B : Type}.
Implicit Types (k : A -> M B) (w : world).

Lemma run_bind (m : M A) k w :
  (m ≫= k) w =
  match m w with
  | (inr x, w') => k x w'
  | (inl e, w') => (inl e, w')
  end.
Proof. reflexivity. Qed.

Lemma run_bind_ret (x : A) k w : (mret x ≫= k) w = k x w.
Proof. reflexivity. Qed.

Lemma run_bind_throw (e : error) k w : (mthrow e ≫= k) w = (inl e, w).
Proof. reflexivity. Qed.

Lemma run_bind_assoc {C} (m : M C) (f : C -> M A) k w :
  ((m ≫= f) ≫= k) w = (m ≫= (fun x => f x ≫= k)) w.
Proof.
  unfold mbind, M_bind. destruct (m w) as [[e|x] w1]; [done|].
  by destruct (f x w1) as [[e|y] w2].
Qed.

End Run.

Section RunPrimitives.
Context {B : Type}.
Implicit Types (w : world).

Lemma run_assert c msg (k : unit -> M B) w :
  (assert c msg ≫= k) w =
  if c then k tt w else (inl (AssertionError msg), w).
Proof. by destruct c. Qed.

Lemma run_when c body (k : unit -> M B) w :
  (when c body ≫= k) w = if c then (body ≫= k) w else k tt w.
Proof. by destruct c. Qed.

Lemma run_typeof_is v t (k : bool -> M B) w :
  (typeof_is v t ≫= k) w = k (String.eqb (typeof (heap w) v) t) w.
Proof. reflexivity. Qed.

Lemma run_read_heap (k : gmap loc object -> M B) w :
  (read_heap ≫= k) w = k (heap w) w.
Proof. reflexivity. Qed.

Lemma run_get_prop l o f (k : value -> M B) w :
  heap w !! l = Some o ->
  (get_prop (VRef l) f ≫= k) w = k (default VUndefined (props o !! f)) w.
Proof. intros H. unfold mbind, M_bind, get_prop. by rewrite H. Qed.

Lemma run_set_prop l o f x (k : unit -> M B) w :
  heap w !! l = Some o ->
  (set_prop (VRef l) f x ≫= k) w =
  k tt (World (<[l := Object (kind_of o) (<[f := x]> (props o))]> (heap w))
              (now w) (ticks w) (calls w)).
Proof. intros H. unfold mbind, M_bind, set_prop. by rewrite H. Qed.

Lemma run_Date_now (k : Z -> M B) w :
  (Date_now ≫= k) w =
  k (now w)
    (World (heap w) (now w + ticks w 0%nat) (fun n => ticks w (S n))
           (calls w)).
Proof. reflexivity. Qed.

Lemma run_own_props l o (k : gmap string value -> M B) w :
  heap w !! l = Some o ->
  (own_props (VRef l) ≫= k) w = k (props o) w.
Proof. intros H. unfold mbind, M_bind, own_props. by rewrite H. Qed.

Lemma run_store_call {A} c (answer : list call -> store_error + A)
    (k : A -> M B) w :
  (store_call c answer ≫= k) w =
  match answer (calls w) with
  | inl e => (inl (StoreError e), logged w c)
  | inr x => k x (logged w c)
  end.
Proof. unfold mbind, M_bind, store_call. by destruct (answer (calls w)). Qed.

End RunPrimitives.

(** ** What [typeof] tests decide *)

Lemma typeof_object h v : String.eqb (typeof h v) "object" = is_object h v.
Proof.
  destruct v; try reflexivity. cbn [typeof is_object].
  destruct (h !! l) as [[[] ?]|]; reflexivity.
Qed.

Lemma typeof_undefined h v :
  String.eqb (typeof h v) "undefined" = bool_decide (v = VUndefined).
Proof.
  destruct v; try reflexivity. cbn [typeof].
  destruct (h !! l) as [[[] ?]|]; reflexivity.
Qed.

Lemma typeof_nonempty_string h v :
  String.eqb (typeof h v) "string" && truthy v = nonempty_string v.
Proof.
  destruct v; try reflexivity. cbn [typeof].
  destruct (h !! l) as [[[] ?]|]; reflexivity.
Qed.

Lemma nonempty_string_inv v :
  nonempty_string v = true -> exists s, v = VStr s /\ s <> "".
Proof.
  destruct v; try discriminate. cbn. intros H. exists s. split; [done|].
  intros ->. discriminate.
Qed.

Lemma nonempty_string_VStr s : s <> "" -> nonempty_string (VStr s) = true.
Proof.
  intros H. cbn. destruct (String.eqb_spec s ""); [done|]. reflexivity.
Qed.

(** ** [touch] *)

Lemma is_object_ref h l o :
  h !! l = Some o -> kind_of o <> Function -> is_object h (VRef l) = true.
Proof. intros H Hk. cbn. rewrite H. by destruct o as [[] ?]. Qed.

Lemma touch_run w l o u :
  heap w !! l = Some o -> kind_of o <> Function -> u <> "" ->
  DAO.touch (VRef l) (VStr u) w = (inr (VRef l), touched w l o u).
Proof.
  intros Hl Hk Hu. unfold DAO.touch, touched.
  rewrite run_typeof_is, typeof_object, (is_object_ref _ _ _ Hl Hk), run_assert.
  rewrite run_typeof_is, run_assert. cbn [typeof String.eqb Ascii.eqb Bool.eqb].
  rewrite run_assert.
  change (truthy (VStr u)) with (nonempty_string (VStr u)).
  rewrite (nonempty_string_VStr _ Hu).
  rewrite (run_get_prop _ _ _ _ _ Hl), run_typeof_is, typeof_undefined, run_when.
  destruct (bool_decide _).
  - rewrite run_bind_assoc, (run_set_prop _ _ _ _ _ _ Hl).
    rewrite run_bind_assoc, run_Date_now.
    erewrite run_set_prop by (cbn [heap]; apply lookup_insert_eq).
    cbn [heap now ticks calls kind_of props].
    erewrite run_set_prop by (cbn [heap]; apply lookup_insert_eq).
    cbn [heap now ticks calls kind_of props].
    rewrite run_Date_now. cbn [heap now ticks calls kind_of props].
    erewrite run_set_prop by (cbn [heap]; apply lookup_insert_eq).
    cbn [heap now ticks calls kind_of props].
    rewrite !insert_insert_eq. reflexivity.
  - erewrite run_set_prop by eassumption.
    rewrite run_Date_now. cbn [heap now ticks calls kind_of props].
    erewrite run_set_prop by (cbn [heap]; apply lookup_insert_eq).
    cbn [heap now ticks calls kind_of props].
    rewrite !insert_insert_eq. reflexivity.
Qed.

(** [touch] either throws before it has changed anything, or stamps a heap
    object that is no function with a non-empty user name. *)
Lemma touch_cases doc u w :
  (exists e, DAO.touch doc u w = (inl e, w)) \/
  (exists l o s,
     doc = VRef l /\ u = VStr s /\ heap w !! l = Some o /\
     kind_of o <> Function /\ s <> "" /\
     DAO.touch doc u w = (inr doc, touched w l o s)).
Proof.
  destruct (is_object (heap w) doc) eqn:Hdoc.
  2: { left. eexists. unfold DAO.touch.
       by rewrite run_typeof_is, typeof_object, Hdoc, run_assert. }
  destruct (String.eqb (typeof (heap w) u) "string") eqn:Hs.
  2: { left. eexists. unfold DAO.touch.
       rewrite run_typeof_is, typeof_object, Hdoc, run_assert.
       by rewrite run_typeof_is, Hs, run_assert. }
  destruct (truthy u) eqn:Ht.
  2: { left. eexists. unfold DAO.touch.
       rewrite run_typeof_is, typeof_object, Hdoc, run_assert.
       by rewrite run_typeof_is, Hs, run_assert, run_assert, Ht. }
  assert (nonempty_string u = true) as Hu
    by (by rewrite <- (typeof_nonempty_string (heap w)), Hs, Ht).
  apply nonempty_string_inv in Hu as (s & -> & Hne).
  destruct doc as [| | | | |l]; try discriminate.
  - left. eexists. unfold DAO.touch.
    rewrite run_typeof_is, typeof_object, Hdoc, run_assert.
    rewrite run_typeof_is, Hs, run_assert, run_assert, Ht. reflexivity.
  - destruct (heap w !! l) as [o|] eqn:Hl.
    + right. exists l, o, s. cbn in Hdoc. rewrite Hl in Hdoc.
      assert (kind_of o <> Function) as Hk by (by destruct o as [[] ?]).
      repeat split; try done. by apply touch_run.
    + left. eexists. unfold DAO.touch.
      rewrite run_typeof_is, typeof_object, Hdoc, run_assert.
      rewrite run_typeof_is, Hs, run_assert, run_assert, Ht.
      unfold mbind, M_bind, get_prop. by rewrite Hl.
Qed.

Lemma touched_props w l o u :
  exists ps,
    heap (touched w l o u) !! l = Some (Object (kind_of o) ps) /\
    forall k, k ∉ stamps -> ps !! k = props o !! k.
Proof.
  unfold touched. cbn [heap]. eexists. split; [apply lookup_insert_eq|].
  intros k Hk. unfold stamps in Hk.
  rewrite !not_elem_of_cons in Hk. destruct Hk as (? & ? & ? & ? & _).
  destruct (bool_decide _); by rewrite ?lookup_insert_ne.
Qed.

(** What the stamped object holds, member by member, and what the clock
    shows afterwards. *)
Lemma touched_spec w l o u :
  heap w !! l = Some o ->
  let doc := VRef l in
  let first := bool_decide (field (heap w) doc "c_by" = VUndefined) in
  let w' := touched w l o u in
  let t := if first then now w + ticks w 0%nat else now w in
  (exists o', heap w' !! l = Some o' /\ kind_of o' = kind_of o) /\
  field (heap w') doc "c_by"
    = (if first then VStr u else field (heap w) doc "c_by") /\
  field (heap w') doc "c_at"
    = (if first then epoch_seconds (now w) else field (heap w) doc "c_at") /\
  field (heap w') doc "m_by" = VStr u /\
  field (heap w') doc "m_at" = epoch_seconds t /\
  (clock_forward w -> now w <= t /\ t <= now w' /\ clock_forward w').
Proof.
  intros Hl doc first w' t. subst doc first w' t.
  unfold touched, field. cbn [heap now ticks]. rewrite lookup_insert_eq, Hl.
  cbn [props kind_of]. split; [by eexists|].
  destruct (bool_decide _).
  - rewrite !(lookup_insert_ne _ "m_at" "c_by") by done.
    rewrite !(lookup_insert_ne _ "m_by" "c_by") by done.
    rewrite !(lookup_insert_ne _ "m_at" "c_at") by done.
    rewrite !(lookup_insert_ne _ "m_by" "c_at") by done.
    rewrite !(lookup_insert_ne _ "c_at" "c_by") by done.
    rewrite !(lookup_insert_ne _ "m_at" "m_by") by done.
    rewrite !lookup_insert_eq. cbn [default]. do 4 (split; [done|]).
    intros Hc. pose proof (Hc 0%nat). pose proof (Hc 1%nat).
    split; [lia|]. split; [lia|]. intros n. apply Hc.
  - rewrite !(lookup_insert_ne _ "m_at" "c_by") by done.
    rewrite !(lookup_insert_ne _ "m_by" "c_by") by done.
    rewrite !(lookup_insert_ne _ "m_at" "c_at") by done.
    rewrite !(lookup_insert_ne _ "m_by" "c_at") by done.
    rewrite !(lookup_insert_ne _ "m_at" "m_by") by done.
    rewrite !lookup_insert_eq. cbn [default]. do 4 (split; [done|]).
    intros Hc. pose proof (Hc 0%nat).
    split; [lia|]. split; [lia|]. intros n. apply Hc.
Qed.

(** C3 (as amended). [touch({}, "alice")] returns the object it was given,
    now holding exactly [c_by], [c_at], [m_by] and [m_at]; both names are
    ["alice"], [c_at] is the epoch second of the first reading of the wall
    clock in the call and [m_at] that of the second reading. The two are one
    integer [T] whenever both readings fall within one second, and [c_at] is
    not after [m_at] whenever the clock is not set back between the two
    readings. *)
Theorem touch_empty_document w l :
  heap w !! l = Some (Object Plain ∅) ->
  let t1 := now w in
  let t2 := now w + ticks w 0%nat in
  let r := DAO.touch (VRef l) (VStr "alice") w in
  r.1 = inr (VRef l) /\
  heap r.2 !! l =
    Some (Object Plain
            (<["m_at" := VNum (Int (t2 / 1000))]>
               (<["m_by" := VStr "alice"]>
                  (<["c_at" := VNum (Int (t1 / 1000))]>
                     (<["c_by" := VStr "alice"]> ∅))))) /\
  (0 <= ticks w 0%nat -> t1 / 1000 <= t2 / 1000) /\
  (1000 * (t1 / 1000) <= t2 < 1000 * (t1 / 1000) + 1000 ->
   t2 / 1000 = t1 / 1000).
Proof.
  intros Hl t1 t2 r. subst r.
  rewrite (touch_run _ _ _ _ Hl) by done.
  unfold touched. cbn [fst snd heap props kind_of]. rewrite lookup_empty.
  cbn [default]. rewrite bool_decide_eq_true_2 by done.
  rewrite lookup_insert_eq. repeat split.
  - intros Hc. apply Z.div_le_mono; subst t1 t2; lia.
  - intros Hlt. subst t1 t2. Z.div_mod_to_equations. lia.
Qed.

Lemma touch_empty_document_witness :
  let r := DAO.touch (VRef 1%positive) (VStr "alice") Example.world0 in
  r.1 = inr (VRef 1%positive) /\
  field (heap r.2) (VRef 1%positive) "c_by" = VStr "alice" /\
  1999 / 1000 <= 2000 / 1000.
Proof.
  pose proof (touch_empty_document Example.world0 1%positive eq_refl) as H.
  cbv zeta in H. destruct H as (H1 & H2 & H3 & _).
  split; [exact H1|]. split; [|apply H3; vm_compute; discriminate].
  unfold field. rewrite H2. reflexivity.
Defined.

(** C3 as stated fails: when a second boundary falls between the two clock
    readings of the call (here 1999 ms and 2000 ms), [c_at] and [m_at]
    differ. *)
Lemma touch_empty_document_two_readings :
  (DAO.touch (VRef 1%positive) (VStr "alice") Example.world0).1
    = inr (VRef 1%positive) /\
  field (heap (DAO.touch (VRef 1%positive) (VStr "alice") Example.world0).2)
        (VRef 1%positive) "c_at" = VNum (Int 1) /\
  field (heap (DAO.touch (VRef 1%positive) (VStr "alice") Example.world0).2)
        (VRef 1%positive) "m_at" = VNum (Int 2).
Proof. repeat split; vm_compute; reflexivity. Qed.

(** C8 (as amended). When [touch(doc, u1)] and then [touch(doc, u2)] are
    applied to one document, the second call leaves [c_by] and [c_at] as the
    first call left them (the first call sets them when [c_by] was unset)
    and sets [m_by] to [u2]; it sets [m_at] to the epoch second of its own
    reading of the wall clock, which is not before the [m_at] of the first
    call whenever the clock is not set back from the first call on. *)
Theorem touch_twice w l o u1 u2 :
  heap w !! l = Some o -> kind_of o <> Function -> u1 <> "" -> u2 <> "" ->
  let doc := VRef l in
  let r1 := DAO.touch doc (VStr u1) w in
  let r2 := DAO.touch doc (VStr u2) r1.2 in
  r1.1 = inr doc /\ r2.1 = inr doc /\
  (field (heap w) doc "c_by" = VUndefined ->
   field (heap r1.2) doc "c_by" = VStr u1 /\
   field (heap r1.2) doc "c_at" = epoch_seconds (now w)) /\
  field (heap r2.2) doc "c_by" = field (heap r1.2) doc "c_by" /\
  field (heap r2.2) doc "c_at" = field (heap r1.2) doc "c_at" /\
  field (heap r2.2) doc "m_by" = VStr u2 /\
  field (heap r2.2) doc "m_at" = epoch_seconds (now r1.2) /\
  exists t1 t2,
    field (heap r1.2) doc "m_at" = VNum (Int t1) /\
    field (heap r2.2) doc "m_at" = VNum (Int t2) /\
    (clock_forward w -> t1 <= t2).
Proof.
  intros Hl Hk Hu1 Hu2 doc r1 r2. subst doc r1 r2.
  rewrite (touch_run _ _ _ _ Hl Hk Hu1). cbn [fst snd].
  pose proof (touched_spec w l o u1 Hl) as H1. cbv zeta in H1.
  destruct H1
    as ((o1 & Hl1 & Hk1) & Hcby1 & Hcat1 & Hmby1 & Hmat1 & Hclock1).
  rewrite (touch_run _ l o1 u2 Hl1) by (done || by rewrite Hk1).
  cbn [fst snd].
  pose proof (touched_spec (touched w l o u1) l o1 u2 Hl1) as H2.
  cbv zeta in H2.
  destruct H2
    as (_ & Hcby2 & Hcat2 & Hmby2 & Hmat2 & _).
  assert (field (heap (touched w l o u1)) (VRef l) "c_by" <> VUndefined) as Hc.
  { rewrite Hcby1.
    destruct (decide (field (heap w) (VRef l) "c_by" = VUndefined)) as [Hf|Hf].
    - rewrite bool_decide_eq_true_2 by done. discriminate.
    - by rewrite bool_decide_eq_false_2. }
  rewrite bool_decide_eq_false_2 in Hcby2, Hcat2, Hmat2 by done.
  split; [done|]. split; [done|]. split.
  { intros Hu. by rewrite Hcby1, Hcat1, bool_decide_eq_true_2. }
  split; [done|]. split; [done|]. split; [done|]. split; [done|].
  eexists _, _. split; [exact Hmat1|]. split; [exact Hmat2|].
  intros Hfw. destruct (Hclock1 Hfw) as (_ & Ht & _).
  apply Z.div_le_mono; lia.
Qed.

Lemma touch_twice_witness :
  let doc := VRef 4%positive in
  let r1 := DAO.touch doc (VStr "admin") Example.world0 in
  let r2 := DAO.touch doc (VStr "test") r1.2 in
  field (heap r2.2) doc "c_by" = field (heap r1.2) doc "c_by" /\
  field (heap r2.2) doc "m_by" = VStr "test".
Proof.
  assert (heap Example.world0 !! 4%positive
          = Some (Example.plain [("_id", VStr "WIDGET:test-1");
                                 ("c_by", VStr "admin"); ("c_at", VNum (Int 1));
                                 ("m_by", VStr "admin"); ("m_at", VNum (Int 1))]))
    as Hl by (vm_compute; reflexivity).
  pose proof (touch_twice Example.world0 4%positive _ "admin" "test" Hl) as H.
  cbv zeta in H.
  destruct H as (_ & _ & _ & H1 & _ & H2 & _); [discriminate..|].
  split; [exact H1 | exact H2].
Defined.

(** C8 as stated fails: [touch] stamps what the clock shows and does not
    look at the [m_at] it overwrites. With the wall clock set back by two
    seconds between the calls, the first call leaves [m_at] 2 and the second
    sets it to 0. *)
Lemma touch_twice_clock_set_back :
  let doc := VRef 4%positive in
  let r1 := DAO.touch doc (VStr "admin") Example.world_set_back in
  let r2 := DAO.touch doc (VStr "test") r1.2 in
  r1.1 = inr doc /\ r2.1 = inr doc /\
  field (heap r1.2) doc "m_at" = VNum (Int 2) /\
  field (heap r2.2) doc "m_at" = VNum (Int 0).
Proof. repeat split; vm_compute; reflexivity. Qed.

(** C10. [touch(doc, u)] changes at most the members [c_by], [c_at], [m_by]
    and [m_at] of [doc]: every other member of [doc], every other object of
    the heap and the log of store calls are as before; what it returns is the
    object it was given; and it does return when [doc] is an object (no
    function) and [u] a non-empty string. *)
Theorem touch_frame doc u w :
  let r := DAO.touch doc u w in
  (forall v, r.1 = inr v -> v = doc) /\
  (forall l o s,
     doc = VRef l -> heap w !! l = Some o -> kind_of o <> Function ->
     u = VStr s -> s <> "" -> r.1 = inr doc) /\
  calls r.2 = calls w /\
  forall l,
    match heap w !! l with
    | Some o =>
        exists o',
          heap r.2 !! l = Some o' /\ kind_of o' = kind_of o /\
          (doc <> VRef l -> o' = o) /\
          forall k, k ∉ stamps -> props o' !! k = props o !! k
    | None => heap r.2 !! l = None
    end.
Proof.
  intros r. subst r.
  destruct (touch_cases doc u w)
    as [[e He]|(l & o & s & -> & -> & Hl & Hk & Hs & Hrun)].
  - rewrite He. cbn [fst snd]. split; [done|]. split; [|split; [done|]].
    + intros l o s -> Hl Hk -> Hs. rewrite (touch_run _ _ _ _ Hl Hk Hs) in He.
      discriminate.
    + intros l. destruct (heap w !! l) as [o|]; [|done].
      exists o. by repeat split.
  - rewrite Hrun. cbn [fst snd].
    split; [congruence|]. split; [done|]. split; [done|].
    intros l'. destruct (decide (l' = l)) as [->|Hne].
    + rewrite Hl. destruct (touched_props w l o s) as (ps & Hps & Hframe).
      exists (Object (kind_of o) ps). by repeat split.
    + unfold touched. cbn [heap]. rewrite lookup_insert_ne by done.
      destruct (heap w !! l') as [o'|]; [|done].
      exists o'. by repeat split.
Qed.

(** ** Validation and the store calls *)

Lemma run_validate {B} this doc (k : ValidatorResult -> M B) w :
  (DAO.validate this doc ≫= k) w =
  if is_object (heap w) doc
  then match Document (DAO.docValidator this) (DAO.type this) (heap w) doc with
       | Some es => k (VResult es) w
       | None => (inl SyntaxError, w)
       end
  else (inl (AssertionError "bad document"), w).
Proof.
  unfold DAO.validate.
  rewrite run_bind_assoc, run_typeof_is, typeof_object.
  rewrite run_bind_assoc, run_assert.
  destruct (is_object (heap w) doc); [|done].
  rewrite run_bind_assoc, run_read_heap.
  destruct (Document _ _ _ _); [by rewrite run_bind_ret|done].
Qed.

Lemma run_insert {B} this doc (k : insert_response -> M B) w :
  (DAO.insert this doc ≫= k) w =
  let body := match doc with VRef l => heap w !! l | _ => None end in
  match db_insert (DAO.db this) (calls w) doc body with
  | inl e => (inl (StoreError e), logged w (Insert doc body))
  | inr res => k res (logged w (Insert doc body))
  end.
Proof.
  unfold mbind, M_bind, DAO.insert, store_call, logged. cbv zeta.
  by destruct (db_insert _ _ _ _).
Qed.

Lemma run_new_object ps w :
  new_object ps w =
  (inr (VRef (fresh (dom (heap w)))),
   World (<[fresh (dom (heap w)) := Object Plain ps]> (heap w))
         (now w) (ticks w) (calls w)).
Proof. reflexivity. Qed.

Lemma valid_nil es : valid (VResult es) = true <-> es = [].
Proof. by destruct es. Qed.

(** A document that passes is a plain object on the heap. *)
Lemma passes_plain this h doc :
  passes this h doc = true ->
  exists l ps, doc = VRef l /\ h !! l = Some (Object Plain ps).
Proof.
  unfold passes, Document.
  destruct doc as [| | | | |l]; try discriminate.
  destruct (h !! l) as [[[] ps]|] eqn:Hl; try discriminate.
  intros _. by exists l, ps.
Qed.

(** What passing says about the members of a plain object. *)
Lemma passes_members this h l ps :
  h !! l = Some (Object Plain ps) ->
  let member k := default VUndefined (ps !! k) in
  passes this h (VRef l) = true <->
  DocumentID (DAO.docValidator this) (DAO.type this) "instance._id"
             (member "_id") = Some [] /\
  NonEmptyString "instance._rev" (member "_rev") = [] /\
  NonEmptyString "instance.c_by" (member "c_by") = [] /\
  integer "instance.c_at" (member "c_at") = [] /\
  NonEmptyString "instance.m_by" (member "m_by") = [] /\
  integer "instance.m_at" (member "m_at") = [] /\
  required ps ["_id"; "c_by"; "c_at"; "m_by"; "m_at"] = [].
Proof.
  intros Hl member. unfold passes, Document. rewrite Hl. fold member.
  destruct (DocumentID _ _ _ _) as [es|]; [|split; [done|by intros [? _]]].
  rewrite valid_nil. split.
  - intros H.
    apply app_eq_nil in H as [-> H]. apply app_eq_nil in H as [H1 H].
    apply app_eq_nil in H as [H2 H]. apply app_eq_nil in H as [H3 H].
    apply app_eq_nil in H as [H4 H]. apply app_eq_nil in H as [H5 H].
    done.
  - subst member. cbv beta. intros (H & -> & -> & -> & -> & -> & ->).
    by simplify_eq.
Qed.

Lemma passes_not_throws this h doc :
  passes this h doc = true -> throws this h doc = false.
Proof. unfold passes, throws. by destruct (Document _ _ _ _). Qed.

Lemma minLength_nonempty s : (1 <= minLength_length s)%nat -> s <> "".
Proof. intros H ->. vm_compute in H. lia. Qed.

(** The converse fails: a low surrogate on its own is a string of one code
    unit that [minLength: 1] turns down. *)
Lemma NonEmptyString_low_surrogate :
  let s := String (ascii_of_N 237)
             (String (ascii_of_N 176) (String (ascii_of_N 128) "")) in
  code_units s = 1%nat /\ truthy (VStr s) = true /\
  NonEmptyString "instance.c_by" (VStr s)
  = [VError "instance.c_by" "minLength" "1"].
Proof. repeat split; vm_compute; reflexivity. Qed.

Lemma NonEmptyString_nil path v :
  NonEmptyString path v = [] <->
  v = VUndefined \/ exists s, v = VStr s /\ (1 <= minLength_length s)%nat.
Proof.
  unfold NonEmptyString. split.
  - destruct v; try discriminate; [by left|].
    destruct (Nat.ltb_spec (minLength_length s) 1); [discriminate|].
    right. eauto.
  - intros [->|(s & -> & Hs)]; [done|].
    destruct (Nat.ltb_spec (minLength_length s) 1); [lia|done].
Qed.

Lemma integer_nil path v :
  integer path v = [] <-> v = VUndefined \/ exists z, v = VNum (Int z).
Proof.
  unfold integer. split.
  - destruct v as [| | |[]| |]; try discriminate; eauto.
  - by intros [->|(z & ->)].
Qed.

Lemma DocumentID_nil V ty path v :
  DocumentID V ty path v = Some [] <->
  v = VUndefined \/
  exists s, v = VStr s /\ regexp_test V ("^" ++ ty ++ ":") s = true.
Proof.
  unfold DocumentID, regexp_test. cbv zeta. split.
  - destruct v; try discriminate; [by left|].
    destruct (regexp V _) as [matches|]; [|discriminate].
    destruct (matches s) eqn:H; [|discriminate]. right. eauto.
  - intros [->|(s & -> & Hs)]; [done|].
    destruct (regexp V _) as [matches|]; [|discriminate]. by rewrite Hs.
Qed.

Lemma required_nil ps ms :
  required ps ms = [] <->
  Forall (fun n => default VUndefined (ps !! n) <> VUndefined) ms.
Proof.
  unfold required. induction ms as [|n ms IH]; cbn [flat_map].
  - split; [constructor|done].
  - rewrite Forall_cons, <- IH. split.
    + intros [H1 H2]%app_eq_nil. split; [|done]. intros Hn. by rewrite Hn in H1.
    + intros [H1 H2]. rewrite H2, app_nil_r. by destruct (default _ _).
Qed.

(** The revision of a document that passes is unset or a non-empty string,
    so it is truthy exactly when it is set. *)
Lemma passes_rev this h doc :
  passes this h doc = true ->
  truthy (field h doc "_rev") = bool_decide (field h doc "_rev" <> VUndefined).
Proof.
  intros Hp. destruct (passes_plain _ _ _ Hp) as (l & ps & -> & Hl).
  pose proof (proj1 (passes_members _ _ _ _ Hl) Hp) as (_ & Hrev & _).
  apply NonEmptyString_nil in Hrev.
  unfold field. rewrite Hl. cbn [props].
  destruct Hrev as [->|(s & -> & Hs%minLength_nonempty)]; [done|].
  cbn. by destruct (String.eqb_spec s "").
Qed.

Lemma strict_eq_VStr v s : strict_eq v (VStr s) = bool_decide (v = VStr s).
Proof. by destruct v as [| | |[]| |]. Qed.

Lemma strict_eq_Int v z :
  strict_eq v (VNum (Int z)) = bool_decide (v = VNum (Int z)).
Proof. by destruct v as [| | |[]| |]. Qed.

Lemma field_get_prop {B} l o f (k : value -> M B) w :
  heap w !! l = Some o ->
  (get_prop (VRef l) f ≫= k) w = k (field (heap w) (VRef l) f) w.
Proof. intros H. rewrite (run_get_prop _ _ _ _ _ H). unfold field. by rewrite H. Qed.

Lemma is_object_plain h l ps :
  h !! l = Some (Object Plain ps) -> is_object h (VRef l) = true.
Proof. intros H. cbn. by rewrite H. Qed.

Lemma passes_is_object this h doc :
  passes this h doc = true -> is_object h doc = true.
Proof.
  intros (l & ps & -> & Hl)%passes_plain. by eapply is_object_plain.
Qed.

Lemma field_is_object h doc f :
  field h doc f <> VUndefined -> exists l o, doc = VRef l /\ h !! l = Some o.
Proof.
  unfold field. destruct doc; try done. destruct (h !! l) eqn:H; [eauto|done].
Qed.

(** ** The checks of [create], [update] and [delete], in their order *)

(** [create] up to its store call. *)
Lemma create_run this doc w :
  DAO.create this doc w =
  if negb (is_object (heap w) doc)
  then (inl (AssertionError "bad document"), w)
  else if negb (passes this (heap w) doc)
  then (inl (not_passed this (heap w) doc), w)
  else if bool_decide (field (heap w) doc "_rev" <> VUndefined)
  then (inl (AssertionError "document may already exist"), w)
  else (res ← DAO.insert this doc;
        ps ← own_props doc;
        new_object (ps ∪ {[ "_rev" := res_rev res ]})) w.
Proof.
  unfold DAO.create. rewrite run_validate.
  destruct (is_object (heap w) doc) eqn:Hobj; [cbn [negb]|done].
  unfold not_passed, throws.
  destruct (passes this (heap w) doc) eqn:Hp; unfold passes in Hp;
    destruct (Document _ _ _ _) as [es|] eqn:Hdoc; try done;
    rewrite run_assert, Hp; [cbn [negb]|done].
  assert (passes this (heap w) doc = true) as Hp'
    by (unfold passes; by rewrite Hdoc).
  clear Hp. rename Hp' into Hp.
  destruct (passes_plain _ _ _ Hp) as (l & ps & -> & Hl).
  rewrite (field_get_prop _ _ _ _ _ Hl), run_assert.
  rewrite (passes_rev _ _ _ Hp). by destruct (bool_decide _).
Qed.

(** [update] up to its store call. *)
Lemma update_run this id doc w :
  DAO.update this id doc w =
  if negb (nonempty_string id)
  then (inl (AssertionError "bad document id"), w)
  else if negb (is_object (heap w) doc)
  then (inl (AssertionError "bad document"), w)
  else if negb (passes this (heap w) doc)
  then (inl (not_passed this (heap w) doc), w)
  else if negb (bool_decide (field (heap w) doc "_id"
                             = VStr (DAO.qualified this id)))
  then (inl (AssertionError "document id mismatch"), w)
  else if negb (bool_decide (field (heap w) doc "_rev" <> VUndefined))
  then (inl (AssertionError "document must already exist"), w)
  else (res ← DAO.insert this doc;
        ps ← own_props doc;
        new_object (<[ "_rev" := res_rev res ]> ps)) w.
Proof.
  unfold DAO.update.
  rewrite run_typeof_is, typeof_nonempty_string, run_assert.
  destruct (nonempty_string id); [cbn [negb]|done].
  rewrite run_validate.
  destruct (is_object (heap w) doc) eqn:Hobj; [cbn [negb]|done].
  unfold not_passed, throws.
  destruct (passes this (heap w) doc) eqn:Hp; unfold passes in Hp;
    destruct (Document _ _ _ _) as [es|] eqn:Hdoc; try done;
    rewrite run_assert, Hp; [cbn [negb]|done].
  assert (passes this (heap w) doc = true) as Hp'
    by (unfold passes; by rewrite Hdoc).
  clear Hp. rename Hp' into Hp.
  destruct (passes_plain _ _ _ Hp) as (l & ps & -> & Hl).
  rewrite (field_get_prop _ _ _ _ _ Hl), run_assert, strict_eq_VStr.
  destruct (bool_decide (_ = _)); [cbn [negb]|done].
  rewrite (field_get_prop _ _ _ _ _ Hl), run_assert.
  rewrite (passes_rev _ _ _ Hp). by destruct (bool_decide _).
Qed.

(** [delete] on an object of the heap, up to its store call. *)
Lemma delete_run this id l o w :
  heap w !! l = Some o ->
  let doc := VRef l in
  DAO.delete this id doc w =
  if negb (nonempty_string id)
  then (inl (AssertionError "bad document id"), w)
  else if negb (is_object (heap w) doc)
  then (inl (AssertionError "bad document"), w)
  else if negb (nonempty_string (field (heap w) doc "_id"))
  then (inl (AssertionError "invalid document"), w)
  else if negb (bool_decide (field (heap w) doc "_id"
                             = VStr (DAO.qualified this id)))
  then (inl (AssertionError "document id mismatch"), w)
  else if negb (truthy (field (heap w) doc "_rev"))
  then (inl (AssertionError "document must already exist"), w)
  else
    store_call
      (Destroy (string_value (field (heap w) doc "_id"))
               (field (heap w) doc "_rev"))
      (fun cs => db_destroy (DAO.db this) cs
                   (string_value (field (heap w) doc "_id"))
                   (field (heap w) doc "_rev")) w.
Proof.
  intros Hl doc. subst doc. unfold DAO.delete.
  rewrite run_typeof_is, typeof_nonempty_string, run_assert.
  destruct (nonempty_string id); [cbn [negb]|done].
  rewrite run_typeof_is, typeof_object, run_assert.
  destruct (is_object (heap w) (VRef l)); [cbn [negb]|done].
  rewrite (field_get_prop _ _ _ _ _ Hl).
  rewrite run_typeof_is, typeof_nonempty_string, run_assert.
  destruct (nonempty_string (field _ _ "_id")); [cbn [negb]|done].
  rewrite run_assert, strict_eq_VStr.
  destruct (bool_decide (_ = _)); [cbn [negb]|done].
  rewrite (field_get_prop _ _ _ _ _ Hl), run_assert.
  by destruct (truthy _).
Qed.

(** C1 (as amended). On a document object whose [_rev] is set, that is,
    [doc._rev] is not [undefined], [create] changes nothing, makes no store
    call, and fails: with AlreadyExists when the document passes the schema,
    with InvalidDocument when validation reports an error (validation is
    checked first), and with the SyntaxError of the pattern when validation
    throws. A [_rev] member that holds [undefined] does not count as set: on
    such a document, as on one without the member, [create] does not fail
    with AlreadyExists. *)
Theorem create_document_with_rev this doc w :
  is_object (heap w) doc = true ->
  let r := DAO.create this doc w in
  (field (heap w) doc "_rev" <> VUndefined ->
   r.2 = w /\
   match Document (DAO.docValidator this) (DAO.type this) (heap w) doc with
   | Some [] => fails_with r AlreadyExists
   | Some (_ :: _) => fails_with r InvalidDocument
   | None => r.1 = inl SyntaxError
   end) /\
  (field (heap w) doc "_rev" = VUndefined -> ~ fails_with r AlreadyExists).
Proof.
  intros Hobj r. subst r. rewrite create_run, Hobj. cbn [negb].
  unfold not_passed, throws, passes. split.
  - intros Hrev.
    destruct (Document _ _ _ _) as [[|e es]|]; cbn [valid errors negb];
      [|split; [done|fails]|done].
    rewrite bool_decide_eq_true_2 by done. split; [done|fails].
  - intros Hrev.
    destruct (Document _ _ _ _) as [[|e es]|] eqn:Hdoc; cbn [valid errors negb];
      [|unfold fails_with; cbn [fst]; vm_compute; discriminate
       |unfold fails_with; cbn [fst kind_of_error]; discriminate].
    rewrite bool_decide_eq_false_2 by (by intros []).
    assert (passes this (heap w) doc = true) as Hp
      by (unfold passes; by rewrite Hdoc).
    destruct (passes_plain _ _ _ Hp) as (l & ps & -> & Hl).
    rewrite run_insert. cbv zeta. rewrite Hl.
    destruct (db_insert _ _ _ _) as [e|res];
      [unfold fails_with; cbn [fst kind_of_error]; discriminate|].
    erewrite run_own_props by (cbn [heap logged]; exact Hl).
    rewrite run_new_object. unfold fails_with. cbn [fst]. tauto.
Qed.

Lemma create_document_with_rev_witness :
  fails_with (DAO.create Example.widget (VRef 3%positive) Example.world0)
             AlreadyExists.
Proof.
  assert (is_object (heap Example.world0) (VRef 3%positive) = true)
    as H1 by (vm_compute; reflexivity).
  assert (field (heap Example.world0) (VRef 3%positive) "_rev" <> VUndefined)
    as H2 by (vm_compute; discriminate).
  pose proof (create_document_with_rev Example.widget _ _ H1) as [H _].
  specialize (H H2) as [_ H].
  assert (Document (DAO.docValidator Example.widget) (DAO.type Example.widget)
                   (heap Example.world0) (VRef 3%positive) = Some [])
    as H3 by (vm_compute; reflexivity).
  rewrite H3 in H. exact H.
Defined.

(** C1 as stated fails: the document [{_rev: '1-abc'}] bears a [_rev] and
    does not pass the schema; [create] fails on it with InvalidDocument and
    not with AlreadyExists. *)
Lemma create_invalid_document_with_rev :
  field (heap Example.world0) (VRef 2%positive) "_rev" = VStr "1-abc" /\
  fails_with (DAO.create Example.widget (VRef 2%positive) Example.world0)
             InvalidDocument /\
  ~ fails_with (DAO.create Example.widget (VRef 2%positive) Example.world0)
               AlreadyExists.
Proof.
  split; [vm_compute; reflexivity|]. split; [vm_compute; reflexivity|].
  vm_compute. discriminate.
Qed.

(** C2 (as amended). [update(id, doc)] runs its checks in this order and
    stops at the first that fails: InvalidArgument when [id] is no non-empty
    string; InvalidArgument when [doc] is no object ([typeof doc] is not
    ['object']); the SyntaxError of the pattern when validation throws;
    InvalidDocument when validation reports an error; IdentityMismatch when
    [doc._id] is not [type:id], whether or not [doc] has a [_rev];
    PreconditionFailed when [doc._rev] is [undefined]. [delete] decides
    IdentityMismatch before it looks at the revision as well. When every
    check passes and the store answers the insert with [res], [update]
    returns a new object holding the members of [doc] with [_rev] set to
    [res.rev]. *)
Theorem update_checks_in_order this id doc w :
  let q := VStr (DAO.qualified this id) in
  let h := heap w in
  let validation := Document (DAO.docValidator this) (DAO.type this) h doc in
  (nonempty_string id = false ->
   fails_with (DAO.update this id doc w) InvalidArgument) /\
  (nonempty_string id = true -> is_object h doc = false ->
   fails_with (DAO.update this id doc w) InvalidArgument) /\
  (nonempty_string id = true -> is_object h doc = true ->
   validation = None ->
   (DAO.update this id doc w).1 = inl SyntaxError) /\
  (forall e es,
     nonempty_string id = true -> is_object h doc = true ->
     validation = Some (e :: es) ->
     fails_with (DAO.update this id doc w) InvalidDocument) /\
  (nonempty_string id = true -> passes this h doc = true ->
   field h doc "_id" <> q ->
   fails_with (DAO.update this id doc w) IdentityMismatch) /\
  (nonempty_string id = true -> passes this h doc = true ->
   field h doc "_id" = q -> field h doc "_rev" = VUndefined ->
   fails_with (DAO.update this id doc w) PreconditionFailed) /\
  (forall l o res,
     nonempty_string id = true -> passes this h doc = true ->
     field h doc "_id" = q -> field h doc "_rev" <> VUndefined ->
     doc = VRef l -> h !! l = Some o ->
     db_insert (DAO.db this) (calls w) doc (Some o) = inr res ->
     let l' := fresh (dom h) in
     h !! l' = None /\
     DAO.update this id doc w =
       (inr (VRef l'),
        World (<[l' := Object Plain (<["_rev" := res_rev res]> (props o))]> h)
              (now w) (ticks w) (calls w ++ [Insert doc (Some o)]))) /\
  (forall l o,
     doc = VRef l -> h !! l = Some o -> kind_of o <> Function ->
     nonempty_string id = true -> nonempty_string (field h doc "_id") = true ->
     (field h doc "_id" <> q ->
      fails_with (DAO.delete this id doc w) IdentityMismatch) /\
     (field h doc "_id" = q -> truthy (field h doc "_rev") = false ->
      fails_with (DAO.delete this id doc w) PreconditionFailed)).
Proof.
  intros q h validation. subst q h validation.
  rewrite update_run. repeat apply conj.
  - intros ->. fails.
  - intros -> ->. fails.
  - intros -> -> Hdoc. unfold not_passed, throws, passes. by rewrite Hdoc.
  - intros e es -> -> Hdoc. unfold not_passed, throws, passes. rewrite Hdoc.
    fails.
  - intros -> Hp Hid. rewrite (passes_is_object _ _ _ Hp), Hp. cbn [negb].
    rewrite bool_decide_eq_false_2 by done. fails.
  - intros -> Hp Hid Hrev. rewrite (passes_is_object _ _ _ Hp), Hp. cbn [negb].
    rewrite bool_decide_eq_true_2 by done.
    rewrite bool_decide_eq_false_2 by (by intros []). fails.
  - intros l o res -> Hp Hid Hrev -> Hl Hres l'.
    split; [apply not_elem_of_dom, is_fresh|].
    rewrite (passes_is_object _ _ _ Hp), Hp. cbn [negb].
    rewrite !bool_decide_eq_true_2 by done. cbn [negb].
    rewrite run_insert. cbv zeta. rewrite Hl, Hres.
    erewrite run_own_props by (cbn [heap logged]; exact Hl).
    reflexivity.
  - intros l o -> Hl Hk Hid Hdid.
    rewrite (delete_run _ _ _ _ _ Hl), Hid, Hdid.
    rewrite (is_object_ref _ _ _ Hl Hk). cbn [negb]. split.
    + intros Hne. rewrite bool_decide_eq_false_2 by done. fails.
    + intros Heq ->. rewrite bool_decide_eq_true_2 by done. fails.
Qed.

Lemma update_checks_in_order_witness :
  fails_with
    (DAO.update Example.widget (VStr "test-2") (VRef 4%positive) Example.world0)
    IdentityMismatch /\
  fails_with
    (DAO.delete Example.widget (VStr "test-2") (VRef 4%positive) Example.world0)
    IdentityMismatch /\
  (DAO.update Example.unbalanced (VStr "x") (VRef 4%positive) Example.world0).1
    = inl SyntaxError.
Proof.
  pose proof (update_checks_in_order Example.widget (VStr "test-2")
                (VRef 4%positive) Example.world0) as H.
  cbv zeta in H. destruct H as (_ & _ & _ & _ & Hu & _ & _ & Hd).
  pose proof (update_checks_in_order Example.unbalanced (VStr "x")
                (VRef 4%positive) Example.world0) as H.
  cbv zeta in H. destruct H as (_ & _ & Hs & _).
  split; [|split].
  - apply Hu; [reflexivity | vm_compute; reflexivity | vm_compute; discriminate].
  - eapply Hd;
      [reflexivity | vm_compute; reflexivity | vm_compute; discriminate
      | reflexivity | vm_compute; reflexivity | vm_compute; discriminate].
  - apply Hs; vm_compute; reflexivity.
Defined.

(** C2 as stated fails: for the id ['x'] and the document [123], which no
    schema accepts, [update] fails with InvalidArgument and not with
    InvalidDocument: that [doc] is an object is asserted before it is
    validated. *)
Lemma update_non_object_document :
  nonempty_string (VStr "x") = true /\
  passes Example.widget (heap Example.world0) (VNum (Int 123)) = false /\
  fails_with
    (DAO.update Example.widget (VStr "x") (VNum (Int 123)) Example.world0)
    InvalidArgument /\
  ~ fails_with
      (DAO.update Example.widget (VStr "x") (VNum (Int 123)) Example.world0)
      InvalidDocument.
Proof.
  split; [reflexivity|]. split; [vm_compute; reflexivity|].
  split; [vm_compute; reflexivity|]. vm_compute. discriminate.
Qed.

(** C4. [retrieve(id)] fails with InvalidArgument, before any store call,
    when [id] is no non-empty string. Otherwise it asks the store for
    [type:id], once, and returns the document the store gives; it returns
    [null] when the store rejects with status 404, and throws every other
    rejection as it is. *)
Theorem retrieve_not_found this id w :
  let q := DAO.qualified this id in
  let r := DAO.retrieve this id w in
  (nonempty_string id = false -> fails_with r InvalidArgument /\ r.2 = w) /\
  (nonempty_string id = true ->
   r.2 = logged w (Get q) /\
   match db_get (DAO.db this) (calls w) q with
   | inr d => r.1 = inr d
   | inl e =>
       if bool_decide (statusCode e = VNum (Int 404))
       then r.1 = inr VNull
       else r.1 = inl (StoreError e)
   end).
Proof.
  intros q r. subst q r. unfold DAO.retrieve.
  rewrite run_typeof_is, typeof_nonempty_string, run_assert.
  split; intros ->; [split; [fails|done]|].
  unfold try_catch, store_call.
  destruct (db_get _ _ _) as [e|d]; [|done].
  rewrite strict_eq_Int. by destruct (bool_decide _).
Qed.

Lemma retrieve_not_found_witness :
  (DAO.retrieve Example.widget (VStr "does-not-exist") Example.world0).1
  = inr VNull.
Proof.
  pose proof (retrieve_not_found Example.widget (VStr "does-not-exist")
                Example.world0) as H.
  cbv zeta in H. destruct H as [_ H]. destruct (H eq_refl) as [_ H1].
  exact H1.
Defined.

(** ** The view queries *)

Lemma run_partitionedView {B} this v opts (k : list row -> M B) w :
  (DAO.partitionedView this (VStr v) opts ≫= k) w =
  let c := PartitionedView (DAO.type this) (DAO.type this) v opts in
  match db_partitionedView (DAO.db this) (calls w)
          (DAO.type this) (DAO.type this) v opts with
  | inl e => (inl (StoreError e), logged w c)
  | inr rows => k rows (logged w c)
  end.
Proof. unfold DAO.partitionedView. by rewrite run_store_call. Qed.

Lemma length_pos_nonempty {A} (l : list A) :
  bool_decide (0 < length l)%nat = bool_decide (l <> []).
Proof.
  destruct l; [done|].
  rewrite !bool_decide_eq_true_2; [done|done|cbn; lia].
Qed.

Lemma length_nonzero_nonempty {A} (l : list A) :
  bool_decide (length l <> 0%nat) = bool_decide (l <> []).
Proof. by destruct l. Qed.

(** [retrieve], [findOne] and [count] on arguments that pass their checks:
    the one store call and what is made of its answer. *)
Lemma retrieve_run this id w :
  DAO.retrieve this id w =
  if negb (nonempty_string id)
  then (inl (AssertionError "bad document id"), w)
  else
    (match db_get (DAO.db this) (calls w) (DAO.qualified this id) with
     | inr d => inr d
     | inl e =>
         if bool_decide (statusCode e = VNum (Int 404))
         then inr VNull
         else inl (StoreError e)
     end,
     logged w (Get (DAO.qualified this id))).
Proof.
  unfold DAO.retrieve.
  rewrite run_typeof_is, typeof_nonempty_string, run_assert.
  destruct (nonempty_string id); [cbn [negb]|done].
  unfold try_catch, store_call, logged.
  destruct (db_get _ _ _) as [e|d]; [|done].
  rewrite strict_eq_Int. by destruct (bool_decide _).
Qed.

Lemma findOne_run this v ks w :
  v <> "" -> ks <> [] ->
  let opts :=
    ViewOpts {[ "reduce" := VBool false; "include_docs" := VBool true;
                "limit" := VNum (Int 2) ]} (Some ks) in
  DAO.findOne this (VStr v) ks w =
  (match db_partitionedView (DAO.db this) (calls w)
           (DAO.type this) (DAO.type this) v opts with
   | inl e => inl (StoreError e)
   | inr [] => inr VNull
   | inr [row] => inr (row_doc row)
   | inr (_ :: _ :: _) => inl (AssertionError "key is not unique")
   end,
   logged w (PartitionedView (DAO.type this) (DAO.type this) v opts)).
Proof.
  intros Hv Hks opts. subst opts. unfold DAO.findOne.
  rewrite run_typeof_is, typeof_nonempty_string, run_assert.
  rewrite (nonempty_string_VStr _ Hv), run_assert, length_pos_nonempty.
  rewrite bool_decide_eq_true_2 by done.
  rewrite run_partitionedView. cbv zeta.
  destruct (db_partitionedView _ _ _ _ _ _) as [e|[|r1 [|r2 rows]]]; done.
Qed.

Lemma count_run this v ks w :
  v <> "" ->
  let opts :=
    ViewOpts {[ "reduce" := VBool true ]}
             (match ks with [] => None | _ :: _ => Some ks end) in
  DAO.count this (VStr v) ks w =
  (match db_partitionedView (DAO.db this) (calls w)
           (DAO.type this) (DAO.type this) v opts with
   | inl e => inl (StoreError e)
   | inr [] => inr (VNum (Int 0))
   | inr (row :: _) => inr (row_value row)
   end,
   logged w (PartitionedView (DAO.type this) (DAO.type this) v opts)).
Proof.
  intros Hv opts. subst opts. unfold DAO.count.
  rewrite run_typeof_is, typeof_nonempty_string, run_assert.
  rewrite (nonempty_string_VStr _ Hv).
  replace (if bool_decide (length ks <> 0%nat) then Some ks else None)
    with (match ks with [] => None | _ :: _ => Some ks end)
    by (by destruct ks).
  rewrite run_partitionedView. cbv zeta.
  by destruct (db_partitionedView _ _ _ _ _ _) as [e|[|r1 rows]].
Qed.

(** C5. For a non-empty view name and a non-empty key, [findOne] sends one
    query, with [reduce] off, [include_docs] on, [limit] 2 and the key; on
    its rows it fails with NotUnique when there are two or more, returns the
    document of the row when there is exactly one, and [null] when there is
    none. *)
Theorem findOne_unique this v key w :
  v <> "" -> key <> [] ->
  let opts :=
    ViewOpts {[ "reduce" := VBool false; "include_docs" := VBool true;
                "limit" := VNum (Int 2) ]} (Some key) in
  let r := DAO.findOne this (VStr v) key w in
  r.2 = logged w (PartitionedView (DAO.type this) (DAO.type this) v opts) /\
  forall rows,
    db_partitionedView (DAO.db this) (calls w)
      (DAO.type this) (DAO.type this) v opts = inr rows ->
    ((2 <= length rows)%nat -> fails_with r NotUnique) /\
    (forall row, rows = [row] -> r.1 = inr (row_doc row)) /\
    (rows = [] -> r.1 = inr VNull).
Proof.
  intros Hv Hkey opts r. subst opts r. unfold DAO.findOne.
  rewrite run_typeof_is, typeof_nonempty_string, run_assert.
  rewrite (nonempty_string_VStr _ Hv), run_assert, length_pos_nonempty.
  rewrite bool_decide_eq_true_2 by done.
  rewrite run_partitionedView. cbv zeta.
  destruct (db_partitionedView _ _ _ _ _ _) as [e|rows]; [done|].
  rewrite run_assert. split.
  - by destruct (bool_decide _).
  - intros ? [= <-]. repeat apply conj.
    + intros Hlen. rewrite bool_decide_eq_false_2 by lia. fails.
    + by intros row ->.
    + by intros ->.
Qed.

Lemma findOne_unique_witness :
  (DAO.findOne Example.widget (VStr "by-status") [VStr "INACTIVE"]
     Example.world0).1 = inr (Example.known "3").
Proof.
  pose proof (findOne_unique Example.widget "by-status" [VStr "INACTIVE"]
                Example.world0) as H.
  cbv zeta in H. destruct H as [_ H]; [discriminate..|].
  destruct (H _ eq_refl) as (_ & H1 & _).
  exact (H1 _ eq_refl).
Defined.

(** C6. For a non-empty view name, [count] sends one query with [reduce]
    on; the key is attached exactly when at least one key component was
    given, and the query has no key otherwise. It returns the value of the
    first row of the answer, and 0 when the answer has no row. *)
Theorem count_reduced this v key w :
  v <> "" ->
  let opts :=
    ViewOpts {[ "reduce" := VBool true ]}
             (match key with [] => None | _ :: _ => Some key end) in
  let r := DAO.count this (VStr v) key w in
  r.2 = logged w (PartitionedView (DAO.type this) (DAO.type this) v opts) /\
  forall rows,
    db_partitionedView (DAO.db this) (calls w)
      (DAO.type this) (DAO.type this) v opts = inr rows ->
    r.1 = inr (match rows with
               | row :: _ => row_value row
               | [] => VNum (Int 0)
               end).
Proof.
  intros Hv opts r. subst opts r. unfold DAO.count.
  rewrite run_typeof_is, typeof_nonempty_string, run_assert.
  rewrite (nonempty_string_VStr _ Hv).
  replace (if bool_decide (length key <> 0%nat) then Some key else None)
    with (match key with [] => None | _ :: _ => Some key end)
    by (by destruct key).
  rewrite run_partitionedView. cbv zeta.
  destruct (db_partitionedView _ _ _ _ _ _) as [e|rows]; [done|].
  split; [done|]. by intros ? [= <-].
Qed.

Lemma count_reduced_witness :
  (DAO.count Example.widget (VStr "by-status") [VStr "UNKNOWN-STATUS"]
     Example.world0).1 = inr (VNum (Int 0)).
Proof.
  pose proof (count_reduced Example.widget "by-status" [VStr "UNKNOWN-STATUS"]
                Example.world0) as H.
  cbv zeta in H. destruct H as [_ H]; [discriminate|].
  exact (H _ eq_refl).
Defined.

Lemma select_first_hit rows k :
  select rows
    (ViewOpts {[ "reduce" := VBool false; "include_docs" := VBool false;
                 "limit" := VNum (Int 1) ]} (Some k)) = [] <->
  filter (fun r => row_key r = k) rows = [].
Proof.
  unfold select, matching. cbn [key].
  change (option_of _ "limit") with (VNum (Int 1)).
  change (option_of _ "include_docs") with (VBool false).
  cbn [truthy]. change (Z.to_nat 1) with 1%nat.
  by destruct (filter _ rows).
Qed.

Lemma select_two_hits rows k :
  select rows
    (ViewOpts {[ "reduce" := VBool false; "include_docs" := VBool true;
                 "limit" := VNum (Int 2) ]} (Some k))
  = take 2 (filter (fun r => row_key r = k) rows).
Proof. reflexivity. Qed.

(** C7. For a non-empty view name and a non-empty key, [exists] sends one
    query, with [reduce] off, [include_docs] off, [limit] 1 and the key, and
    returns whether the answer has a row. Against a store that answers from
    a table of rows, that is whether at least one row of the view has the
    key; when two or more rows have it, [exists] returns [true] while
    [findOne] with the same key fails with NotUnique. *)
Theorem exists_presence this views v key w :
  v <> "" -> key <> [] ->
  let opts :=
    ViewOpts {[ "reduce" := VBool false; "include_docs" := VBool false;
                "limit" := VNum (Int 1) ]} (Some key) in
  let r := DAO.exists_ this (VStr v) key w in
  let hits :=
    filter (fun r => row_key r = key)
           (views (DAO.type this) (DAO.type this) v) in
  r.2 = logged w (PartitionedView (DAO.type this) (DAO.type this) v opts) /\
  (forall rows,
     db_partitionedView (DAO.db this) (calls w)
       (DAO.type this) (DAO.type this) v opts = inr rows ->
     r.1 = inr (VBool (bool_decide (rows <> [])))) /\
  (answers_views (DAO.db this) views ->
   r.1 = inr (VBool (bool_decide (hits <> []))) /\
   ((2 <= length hits)%nat ->
    r.1 = inr (VBool true) /\
    forall w0, fails_with (DAO.findOne this (VStr v) key w0) NotUnique)).
Proof.
  intros Hv Hkey opts r hits.
  assert (r.2 = logged w (PartitionedView (DAO.type this) (DAO.type this) v opts)
          /\ forall rows,
               db_partitionedView (DAO.db this) (calls w)
                 (DAO.type this) (DAO.type this) v opts = inr rows ->
               r.1 = inr (VBool (bool_decide (rows <> [])))) as [H1 H2].
  { subst opts r. unfold DAO.exists_.
    rewrite run_typeof_is, typeof_nonempty_string, run_assert.
    rewrite (nonempty_string_VStr _ Hv), run_assert, length_pos_nonempty.
    rewrite bool_decide_eq_true_2 by done.
    rewrite run_partitionedView. cbv zeta.
    destruct (db_partitionedView _ _ _ _ _ _) as [e|rows]; [done|].
    split; [done|]. intros ? [= <-].
    rewrite negb_involutive, length_nonzero_nonempty. reflexivity. }
  split; [done|]. split; [done|]. intros Hdb.
  assert (r.1 = inr (VBool (bool_decide (hits <> [])))) as Hr.
  { assert (members opts !! "key" = None) as Hno by reflexivity.
    rewrite (H2 _ (Hdb _ _ _ _ opts Hno)).
    change (truthy (option_of opts "reduce")) with false. cbv iota.
    do 2 f_equal. apply bool_decide_ext. subst opts hits.
    by rewrite select_first_hit. }
  split; [done|]. intros Hlen. split.
  { rewrite Hr. rewrite bool_decide_eq_true_2; [done|].
    intros Hnil. rewrite Hnil in Hlen. cbn in Hlen. lia. }
  intros w0. rewrite (findOne_run _ _ _ _ Hv Hkey), Hdb by done.
  change (truthy (option_of _ "reduce")) with false. cbv iota.
  rewrite select_two_hits. fold hits.
  destruct hits as [|r1 [|r2 rest]]; cbn in Hlen; try lia. fails.
Qed.

Lemma exists_presence_witness :
  (DAO.exists_ Example.widget (VStr "by-status") [VStr "ACTIVE"]
     Example.world0).1 = inr (VBool true) /\
  fails_with (DAO.findOne Example.widget (VStr "by-status") [VStr "ACTIVE"]
                Example.world0) NotUnique.
Proof.
  pose proof (exists_presence Example.widget Example.views "by-status"
                [VStr "ACTIVE"] Example.world0) as H.
  cbv zeta in H. destruct H as (_ & _ & H); [discriminate..|].
  destruct H as [_ H]; [intros cs p dd v opts _; reflexivity|].
  destruct H as [H1 H2]; [vm_compute; lia|].
  split; [exact H1 | exact (H2 Example.world0)].
Defined.

(** ** Errors before and after the store call *)

Lemma validation_error_inv e :
  validation_error e ->
  exists m, e = AssertionError m /\ m <> "key is not unique".
Proof.
  intros (k & Hk & Hne). destruct e as [m| | |]; try discriminate.
  exists m. split; [done|]. intros ->. apply Hne.
  vm_compute in Hk. congruence.
Qed.

Lemma late_ret {A} (x : A) : late (mret x : M A).
Proof. intros w e w' [=]. Qed.

Lemma late_bind {A B} (m : M A) (k : A -> M B) :
  late m -> (forall x, late (k x)) -> late (m ≫= k).
Proof.
  intros Hm Hk w e w'. rewrite run_bind.
  destruct (m w) as [[e1|x] w1] eqn:Hrun.
  - intros [= <- <-]. by eapply Hm.
  - by apply Hk.
Qed.

Lemma late_store_call {A} c (answer : list call -> store_error + A) :
  late (store_call c answer).
Proof.
  intros w e w'. unfold store_call. destruct (answer _); intros [= <- <-].
  by intros (m & [=] & _)%validation_error_inv.
Qed.

Lemma late_insert this doc : late (DAO.insert this doc).
Proof. intros w e w'. unfold DAO.insert. apply late_store_call. Qed.

Lemma late_own_props v : late (own_props v).
Proof.
  intros w e w'. unfold own_props.
  destruct v; try by intros [=].
  destruct (heap w !! l); intros [= <- <-].
  by intros (m & [=] & _)%validation_error_inv.
Qed.

Lemma late_new_object ps : late (new_object ps).
Proof. by intros w e w' [=]. Qed.

Lemma late_not_unique c : late (assert c "key is not unique").
Proof.
  intros w e w'. destruct c; intros [= <- <-].
  by intros (m & [= <-] & Hm)%validation_error_inv.
Qed.

Lemma late_before_store {A} (m : M A) : late m -> before_store m.
Proof. intros H w e w' Hrun He. by destruct (H _ _ _ Hrun). Qed.

Lemma create_before_store this doc : before_store (DAO.create this doc).
Proof.
  intros w e w'. rewrite create_run.
  repeat (case_match; [by intros [= <- <-]|]).
  apply late_before_store, late_bind; [apply late_insert|]. intros res.
  apply late_bind; [apply late_own_props|]. intros ps. apply late_new_object.
Qed.

Lemma update_before_store this id doc : before_store (DAO.update this id doc).
Proof.
  intros w e w'. rewrite update_run.
  repeat (case_match; [by intros [= <- <-]|]).
  apply late_before_store, late_bind; [apply late_insert|]. intros res.
  apply late_bind; [apply late_own_props|]. intros ps. apply late_new_object.
Qed.

(** [delete] on what is no object of the heap never reaches the store. *)
Lemma delete_no_object this id doc w :
  (forall l, doc = VRef l -> heap w !! l = None) ->
  (DAO.delete this id doc w).2 = w.
Proof.
  intros Hdoc. unfold DAO.delete.
  rewrite run_typeof_is, typeof_nonempty_string, run_assert.
  destruct (nonempty_string id); [|done].
  rewrite run_typeof_is, typeof_object, run_assert.
  destruct (is_object (heap w) doc); [|done].
  destruct doc as [| | | | |l]; try done.
  unfold mbind, M_bind, get_prop. by rewrite (Hdoc l eq_refl).
Qed.

Lemma delete_before_store this id doc : before_store (DAO.delete this id doc).
Proof.
  intros w e w' Hrun He.
  assert ((DAO.delete this id doc w).2 = w' ) as Hw by (by rewrite Hrun).
  destruct doc as [| | | | |l];
    try (by rewrite delete_no_object in Hw; [subst w'|]).
  destruct (heap w !! l) as [o|] eqn:Hl;
    [|by rewrite delete_no_object in Hw; [subst w'|intros ? [= <-]]].
  revert Hrun He. clear Hw. rewrite (delete_run _ _ _ _ _ Hl).
  repeat (case_match; [by intros [= <- <-]|]).
  intros Hrun He. by destruct (late_store_call _ _ _ _ _ Hrun).
Qed.

Lemma findOne_before_store this v key : before_store (DAO.findOne this v key).
Proof.
  intros w e w'. unfold DAO.findOne.
  rewrite run_typeof_is, typeof_nonempty_string, run_assert.
  destruct (nonempty_string v); [|by intros [= <- <-]].
  rewrite run_assert. destruct (bool_decide _); [|by intros [= <- <-]].
  apply late_before_store, late_bind; [apply late_store_call|]. intros rows.
  apply late_bind; [apply late_not_unique|]. intros _. apply late_ret.
Qed.

(** [findOne] raises NotUnique only on the answer of the store. *)
Lemma findOne_not_unique_late this v key w e w' :
  DAO.findOne this v key w = (inl e, w') ->
  kind_of_error e = Some NotUnique ->
  exists c, calls w' = (calls w ++ [c])%list.
Proof.
  unfold DAO.findOne.
  rewrite run_typeof_is, typeof_nonempty_string, run_assert.
  destruct (nonempty_string v); [|by intros [= <- <-]].
  rewrite run_assert. destruct (bool_decide _); [|by intros [= <- <-]].
  unfold DAO.partitionedView. rewrite run_store_call.
  destruct (db_partitionedView _ _ _ _ _ _) as [e1|rows].
  - intros [= <- <-]. by eexists.
  - rewrite run_assert. destruct (bool_decide _); intros [= <- <-]. by eexists.
Qed.

(** C9. When [create], [update], [delete] or [findOne] fails with a
    validation or argument error (InvalidArgument, InvalidDocument,
    AlreadyExists, IdentityMismatch, PreconditionFailed), no store call was
    issued by that operation. No bad argument makes [findOne] fail with
    NotUnique: it raises that error only on the rows the store answered,
    after its one query. *)
Theorem validation_errors_before_store_calls this :
  (forall doc, before_store (DAO.create this doc)) /\
  (forall id doc, before_store (DAO.update this id doc)) /\
  (forall id doc, before_store (DAO.delete this id doc)) /\
  (forall v key, before_store (DAO.findOne this v key)) /\
  (forall v key w e w',
     DAO.findOne this v key w = (inl e, w') ->
     kind_of_error e = Some NotUnique ->
     exists c, calls w' = (calls w ++ [c])%list).
Proof.
  repeat apply conj.
  - apply create_before_store.
  - apply update_before_store.
  - apply delete_before_store.
  - apply findOne_before_store.
  - apply findOne_not_unique_late.
Qed.

Lemma validation_errors_before_store_calls_witness :
  calls (DAO.update Example.widget (VStr "test-1") (VRef 4%positive)
           Example.world0).2 = [].
Proof.
  pose proof (validation_errors_before_store_calls Example.widget)
    as (_ & H & _).
  eapply (H (VStr "test-1") (VRef 4%positive) Example.world0
            (AssertionError "document must already exist")).
  - vm_compute. reflexivity.
  - exists PreconditionFailed. split; [vm_compute; reflexivity|discriminate].
Defined.

(** With two rows under the key, [findOne] fails with NotUnique when its
    query has gone to the store. *)
Lemma findOne_not_unique_after_query :
  fails_with (DAO.findOne Example.widget (VStr "by-status") [VStr "ACTIVE"]
                Example.world0) NotUnique /\
  calls Example.world0 = [] /\
  calls (DAO.findOne Example.widget (VStr "by-status") [VStr "ACTIVE"]
           Example.world0).2
  = [PartitionedView "WIDGET" "WIDGET" "by-status"
       (ViewOpts {[ "reduce" := VBool false; "include_docs" := VBool true;
                    "limit" := VNum (Int 2) ]} (Some [VStr "ACTIVE"]))].
Proof. repeat split; vm_compute; reflexivity. Qed.

(** * Further properties of the class *)

(** ** [validate] *)

Lemma Document_plain V ty h l ps :
  h !! l = Some (Object Plain ps) ->
  Document V ty h (VRef l) =
  match DocumentID V ty "instance._id" (default VUndefined (ps !! "_id")) with
  | Some id_errors =>
      Some (id_errors
            ++ NonEmptyString "instance._rev" (default VUndefined (ps !! "_rev"))
            ++ NonEmptyString "instance.c_by" (default VUndefined (ps !! "c_by"))
            ++ integer "instance.c_at" (default VUndefined (ps !! "c_at"))
            ++ NonEmptyString "instance.m_by" (default VUndefined (ps !! "m_by"))
            ++ integer "instance.m_at" (default VUndefined (ps !! "m_at"))
            ++ required ps ["_id"; "c_by"; "c_at"; "m_by"; "m_at"])%list
  | None => None
  end.
Proof. intros H. unfold Document. by rewrite H. Qed.

Lemma validate_run this doc w :
  DAO.validate this doc w =
  if is_object (heap w) doc
  then match Document (DAO.docValidator this) (DAO.type this) (heap w) doc with
       | Some es => (inr (VResult es), w)
       | None => (inl SyntaxError, w)
       end
  else (inl (AssertionError "bad document"), w).
Proof.
  unfold DAO.validate.
  rewrite run_typeof_is, typeof_object, run_assert.
  destruct (is_object (heap w) doc); [|done].
  rewrite run_read_heap. by destruct (Document _ _ _ _).
Qed.

(** [validate] returns a result without errors exactly on what passes. *)
Lemma validate_valid this doc w :
  (exists vr, DAO.validate this doc w = (inr vr, w) /\ valid vr = true) <->
  passes this (heap w) doc = true.
Proof.
  rewrite validate_run. unfold passes. split.
  - intros (vr & Hrun & Hv).
    destruct (is_object (heap w) doc); [|discriminate].
    destruct (Document _ _ _ _); [|discriminate]. by injection Hrun as <-.
  - intros Hp. rewrite (passes_is_object this) by done.
    destruct (Document _ _ _ _); [|discriminate]. by eexists.
Qed.

(** X1. [validate(doc)] returns a result without errors exactly when [doc] is a
    plain object whose [_id] is a string the pattern [^type:] accepts, whose
    [_rev] is unset or a string that [minLength: 1] accepts, whose [c_by] and
    [m_by] are strings that [minLength: 1] accepts, and whose [c_at] and
    [m_at] are integers. [minLength: 1] accepts a string that has a code unit
    which is no low surrogate. *)
Theorem validate_accepts this doc w :
  (exists vr, DAO.validate this doc w = (inr vr, w) /\ valid vr = true) <->
  exists l ps,
    doc = VRef l /\ heap w !! l = Some (Object Plain ps) /\
    (exists s, field (heap w) doc "_id" = VStr s /\
               regexp_test (DAO.docValidator this)
                 ("^" ++ DAO.type this ++ ":") s = true) /\
    (field (heap w) doc "_rev" = VUndefined \/
     exists s, field (heap w) doc "_rev" = VStr s /\
               (1 <= minLength_length s)%nat) /\
    (exists s, field (heap w) doc "c_by" = VStr s /\
               (1 <= minLength_length s)%nat) /\
    (exists z, field (heap w) doc "c_at" = VNum (Int z)) /\
    (exists s, field (heap w) doc "m_by" = VStr s /\
               (1 <= minLength_length s)%nat) /\
    (exists z, field (heap w) doc "m_at" = VNum (Int z)).
Proof.
  rewrite validate_valid. split.
  - intros Hp. destruct (passes_plain _ _ _ Hp) as (l & ps & -> & Hl).
    exists l, ps. split; [done|]. split; [done|].
    pose proof (proj1 (passes_members _ _ _ _ Hl) Hp)
      as (Hid & Hrev & Hcby & Hcat & Hmby & Hmat & Hreq).
    rewrite required_nil, !Forall_cons in Hreq.
    destruct Hreq as (Rid & Rcby & Rcat & Rmby & Rmat & _).
    apply DocumentID_nil in Hid as [?|Hid]; [done|].
    apply NonEmptyString_nil in Hrev.
    apply NonEmptyString_nil in Hcby as [?|Hcby]; [done|].
    apply integer_nil in Hcat as [?|Hcat]; [done|].
    apply NonEmptyString_nil in Hmby as [?|Hmby]; [done|].
    apply integer_nil in Hmat as [?|Hmat]; [done|].
    unfold field. rewrite Hl. cbn [props]. by repeat split.
  - intros (l & ps & -> & Hl & Hid & Hrev & Hcby & Hcat & Hmby & Hmat).
    unfold field in *. rewrite Hl in *. cbn [props] in *.
    apply (passes_members _ _ _ _ Hl). cbv zeta.
    split; [apply DocumentID_nil; by right|].
    split; [by apply NonEmptyString_nil|].
    split; [apply NonEmptyString_nil; by right|].
    split; [apply integer_nil; by right|].
    split; [apply NonEmptyString_nil; by right|].
    split; [apply integer_nil; by right|].
    apply required_nil. rewrite !Forall_cons.
    destruct Hid as (? & -> & _), Hcby as (? & -> & _), Hcat as (? & ->),
      Hmby as (? & -> & _), Hmat as (? & ->).
    by repeat split.
Qed.

(** X2. The schema is open: setting a member other than [_id], [_rev], [c_by],
    [c_at], [m_by] and [m_at] on a plain object, to any value, leaves the
    errors [validate] reports as they were. *)
Theorem validate_open_schema this h l ps k x :
  h !! l = Some (Object Plain ps) ->
  k ∉ ["_id"; "_rev"; "c_by"; "c_at"; "m_by"; "m_at"] ->
  Document (DAO.docValidator this) (DAO.type this)
    (<[l := Object Plain (<[k := x]> ps)]> h) (VRef l)
  = Document (DAO.docValidator this) (DAO.type this) h (VRef l).
Proof.
  intros Hl Hk. rewrite !not_elem_of_cons in Hk.
  destruct Hk as (? & ? & ? & ? & ? & ? & _).
  rewrite (Document_plain _ _ h _ _ Hl).
  rewrite (Document_plain _ _ _ l (<[k := x]> ps)) by apply lookup_insert_eq.
  unfold required. cbn [flat_map].
  by rewrite !lookup_insert_ne by done.
Qed.

Lemma validate_open_schema_witness :
  Document Example.prefix_engine "WIDGET"
    (<[3%positive :=
         Object Plain
           (<["xxx" := VStr "this is allowed..."]>
              (list_to_map
                 [("_id", VStr "WIDGET:test-1"); ("_rev", VStr "1-123456789");
                  ("c_by", VStr "admin"); ("c_at", VNum (Int 1));
                  ("m_by", VStr "admin"); ("m_at", VNum (Int 1));
                  ("test", VStr "initial-value")]))]> (heap Example.world0))
    (VRef 3%positive)
  = Document Example.prefix_engine "WIDGET" (heap Example.world0)
      (VRef 3%positive).
Proof.
  apply (validate_open_schema Example.widget).
  - vm_compute. reflexivity.
  - rewrite !not_elem_of_cons. repeat split; try discriminate.
    apply not_elem_of_nil.
Defined.

(** X3. What passes [typeof doc === 'object'] without being a plain object
    ([null], an array, a [Date]) is turned down by the schema, not by the
    argument check: [validate] returns the single error that the instance is
    no object, and [create] and [update] fail with InvalidDocument, before
    any store call. *)
Theorem not_plain_is_invalid this id doc w :
  is_object (heap w) doc = true ->
  (forall l ps, doc = VRef l -> heap w !! l <> Some (Object Plain ps)) ->
  DAO.validate this doc w
    = (inr (VResult [VError "instance" "type" "object"]), w) /\
  DAO.create this doc w = (inl (AssertionError "invalid document"), w) /\
  (nonempty_string id = true ->
   DAO.update this id doc w = (inl (AssertionError "invalid document"), w)).
Proof.
  intros Hobj Hnot.
  assert (Document (DAO.docValidator this) (DAO.type this) (heap w) doc
          = Some [VError "instance" "type" "object"]) as HD.
  { unfold Document. destruct doc as [| | | | |l]; try done.
    destruct (heap w !! l) as [[[] ps]|] eqn:Hl; try done.
    by destruct (Hnot l ps eq_refl). }
  assert (passes this (heap w) doc = false) as Hp
    by (unfold passes; by rewrite HD).
  assert (not_passed this (heap w) doc = AssertionError "invalid document")
    as Hn by (unfold not_passed, throws; by rewrite HD).
  split; [by rewrite validate_run, Hobj, HD|].
  split; [by rewrite create_run, Hobj, Hp, Hn|].
  intros Hid. by rewrite update_run, Hid, Hobj, Hp, Hn.
Qed.

Lemma not_plain_is_invalid_witness :
  fails_with (DAO.create Example.widget VNull Example.world0) InvalidDocument.
Proof.
  pose proof (not_plain_is_invalid Example.widget (VStr "x") VNull
                Example.world0 eq_refl) as (_ & H & _); [discriminate|].
  rewrite H. vm_compute. reflexivity.
Defined.

(** ** [touch] *)

(** X4. [touch] checks its arguments in a fixed order and throws before its
    first write: a document that is no object gives 'bad document'; then a
    user name that is no string gives 'bad user name', and the empty string
    'invalid user name'; [null] passes the document check and gives a
    TypeError at the first member read. Whenever [touch] throws, the world is
    as it was. *)
Theorem touch_rejects doc u w :
  let r := DAO.touch doc u w in
  (is_object (heap w) doc = false ->
   r.1 = inl (AssertionError "bad document")) /\
  (is_object (heap w) doc = true -> (forall s, u <> VStr s) ->
   r.1 = inl (AssertionError "bad user name")) /\
  (is_object (heap w) doc = true -> u = VStr "" ->
   r.1 = inl (AssertionError "invalid user name")) /\
  (doc = VNull -> nonempty_string u = true -> r.1 = inl TypeError) /\
  (forall e, r.1 = inl e -> r.2 = w).
Proof.
  intros r. subst r. repeat apply conj.
  - intros H. unfold DAO.touch.
    by rewrite run_typeof_is, typeof_object, H, run_assert.
  - intros H Hu. unfold DAO.touch.
    rewrite run_typeof_is, typeof_object, H, run_assert.
    rewrite run_typeof_is, run_assert.
    destruct u as [| | | |s|l]; try done; [by destruct (Hu s)|].
    cbn [typeof]. by destruct (heap w !! l) as [[[] ?]|].
  - intros H ->. unfold DAO.touch.
    by rewrite run_typeof_is, typeof_object, H, run_assert.
  - intros -> (s & -> & Hs)%nonempty_string_inv. unfold DAO.touch.
    rewrite run_typeof_is, run_assert. cbn [typeof].
    change (String.eqb "object" "object") with true. cbv iota.
    rewrite run_typeof_is, run_assert. cbn [typeof].
    change (String.eqb "string" "string") with true. cbv iota.
    rewrite run_assert.
    change (truthy (VStr s)) with (nonempty_string (VStr s)).
    by rewrite (nonempty_string_VStr _ Hs).
  - intros e He.
    destruct (touch_cases doc u w) as [[e' H]|(l & o & s & _ & _ & _ & _ & _ & H)];
      rewrite H in He |- *; [done|discriminate].
Qed.

Lemma touch_rejects_witness :
  (DAO.touch (VRef 1%positive) (VStr "") Example.world0).1
  = inl (AssertionError "invalid user name").
Proof.
  pose proof (touch_rejects (VRef 1%positive) (VStr "") Example.world0) as H.
  cbv zeta in H. destruct H as (_ & _ & H & _).
  apply H; [vm_compute|]; reflexivity.
Defined.

(** X5. [touch] establishes and keeps the order of the audit members: after a
    first [touch] of an object without [c_by], [c_by] is set, [c_at] and
    [m_at] are seconds with [c_at <= m_at], and [m_at] is not after the
    current second; and every later [touch] keeps this. The wall clock is
    taken not to be set back from the call on, which it then is not from the
    end of the call on either. *)
Theorem touch_audited w l o u :
  heap w !! l = Some o -> kind_of o <> Function -> u <> "" ->
  clock_forward w ->
  field (heap w) (VRef l) "c_by" = VUndefined \/ audited w l ->
  audited (DAO.touch (VRef l) (VStr u) w).2 l /\
  clock_forward (DAO.touch (VRef l) (VStr u) w).2.
Proof.
  intros Hl Hk Hu Hfw Hpre. rewrite (touch_run _ _ _ _ Hl Hk Hu). cbn [snd].
  pose proof (touched_spec w l o u Hl) as H. cbv zeta in H.
  destruct H as (_ & Hcby & Hcat & _ & Hmat & Hclock).
  destruct (Hclock Hfw) as (Ht1 & Ht2 & Hfw').
  split; [|done].
  unfold audited. rewrite Hcby, Hcat, Hmat.
  set (t := if bool_decide (field (heap w) (VRef l) "c_by" = VUndefined)
            then now w + ticks w 0%nat else now w) in *.
  assert (t / 1000 <= now (touched w l o u) / 1000)
    by (apply Z.div_le_mono; lia).
  assert (now w / 1000 <= t / 1000) by (apply Z.div_le_mono; lia).
  destruct Hpre as [Hfirst|(a & m & Hc & Ha & Hm & Ham & Hnow)].
  - rewrite bool_decide_eq_true_2 by done.
    exists (now w / 1000), (t / 1000). by repeat split.
  - rewrite bool_decide_eq_false_2 by done.
    exists a, (t / 1000). repeat split; try done. lia.
Qed.

Lemma touch_audited_witness :
  audited (DAO.touch (VRef 1%positive) (VStr "admin") Example.world0).2
          1%positive.
Proof.
  apply (touch_audited Example.world0 1%positive (Example.plain []) "admin").
  - vm_compute. reflexivity.
  - discriminate.
  - discriminate.
  - intros n. vm_compute. discriminate.
  - left. vm_compute. reflexivity.
Defined.

(** X6. A first [touch] makes a document ready for [create]: a plain object
    whose [_id] is a string the pattern accepts and that has no [_rev] and no
    [c_by] passes the schema once it is touched with a user name that
    [minLength: 1] accepts (one with a code unit that is no low surrogate),
    and [create] then sends it to the store, stamped. *)
Theorem touch_then_create this w l ps s u :
  heap w !! l = Some (Object Plain ps) ->
  default VUndefined (ps !! "_id") = VStr s ->
  regexp_test (DAO.docValidator this) ("^" ++ DAO.type this ++ ":") s = true ->
  default VUndefined (ps !! "_rev") = VUndefined ->
  default VUndefined (ps !! "c_by") = VUndefined ->
  (1 <= minLength_length u)%nat ->
  let w1 := (DAO.touch (VRef l) (VStr u) w).2 in
  passes this (heap w1) (VRef l) = true /\
  exists o1,
    heap w1 !! l = Some o1 /\
    field (heap w1) (VRef l) "c_by" = VStr u /\
    field (heap w1) (VRef l) "m_by" = VStr u /\
    calls (DAO.create this (VRef l) w1).2
    = (calls w ++ [Insert (VRef l) (Some o1)])%list.
Proof.
  intros Hl Hid Hre Hrev Hcby Hu w1. subst w1.
  rewrite (touch_run _ _ _ _ Hl) by (done || by apply minLength_nonempty).
  cbn [snd].
  assert (heap (touched w l (Object Plain ps) u) !! l =
          Some (Object Plain
                  (<["m_at" := epoch_seconds (now w + ticks w 0%nat)]>
                     (<["m_by" := VStr u]>
                        (<["c_at" := epoch_seconds (now w)]>
                           (<["c_by" := VStr u]> ps)))))) as Hl1.
  { unfold touched. cbn [heap props kind_of].
    rewrite Hcby, bool_decide_eq_true_2 by done. apply lookup_insert_eq. }
  assert (passes this (heap (touched w l (Object Plain ps) u)) (VRef l) = true)
    as Hp.
  { apply (passes_members _ _ _ _ Hl1). cbv zeta.
    unfold required. cbn [flat_map].
    rewrite !(lookup_insert_ne _ _ "_id"), !(lookup_insert_ne _ _ "_rev") by done.
    rewrite Hid, Hrev.
    rewrite !(lookup_insert_ne _ "m_at" "c_by"), !(lookup_insert_ne _ "m_by" "c_by"),
      !(lookup_insert_ne _ "c_at" "c_by"), !(lookup_insert_ne _ "m_at" "c_at"),
      !(lookup_insert_ne _ "m_by" "c_at"), !(lookup_insert_ne _ "m_at" "m_by") by done.
    rewrite !lookup_insert_eq. cbn [default from_option id].
    split; [apply DocumentID_nil; eauto|].
    split; [done|].
    split; [apply NonEmptyString_nil; eauto|].
    split; [done|].
    split; [apply NonEmptyString_nil; eauto|].
    done. }
  split; [done|]. eexists. split; [exact Hl1|].
  unfold field. rewrite Hl1. cbn [props].
  rewrite !(lookup_insert_ne _ "m_at" "c_by"), !(lookup_insert_ne _ "m_by" "c_by"),
    !(lookup_insert_ne _ "c_at" "c_by"), !(lookup_insert_ne _ "m_at" "m_by") by done.
  rewrite !lookup_insert_eq. cbn [default]. split; [done|]. split; [done|].
  rewrite create_run, (passes_is_object _ _ _ Hp), Hp. cbn [negb].
  rewrite bool_decide_eq_false_2.
  2: { intros Hn. apply Hn. unfold field. rewrite Hl1. cbn [props].
       by rewrite !lookup_insert_ne by done. }
  rewrite run_insert. cbv zeta. rewrite Hl1.
  destruct (db_insert _ _ _ _) as [e|res]; [done|].
  erewrite run_own_props by (cbn [heap logged]; exact Hl1).
  reflexivity.
Qed.

Lemma touch_then_create_witness :
  passes Example.widget
    (heap (DAO.touch (VRef 5%positive) (VStr "admin")
             (World (<[5%positive :=
                         Example.plain [("_id", VStr "WIDGET:known-1");
                                        ("name", VStr "known-1")]]>
                       (heap Example.world0)) 0 (fun _ => 0) [])).2)
    (VRef 5%positive) = true.
Proof.
  refine (proj1 (touch_then_create Example.widget
                   (World (<[5%positive :=
                               Example.plain [("_id", VStr "WIDGET:known-1");
                                              ("name", VStr "known-1")]]>
                             (heap Example.world0)) 0 (fun _ => 0) [])
                   5%positive _ "WIDGET:known-1" "admin" _ _ _ _ _ _));
    try (vm_compute; reflexivity).
  vm_compute. lia.
Defined.

(** ** What each operation does to the world *)

Lemma passes_id this h l ps :
  passes this h (VRef l) = true -> h !! l = Some (Object Plain ps) ->
  exists s,
    default VUndefined (ps !! "_id") = VStr s /\
    regexp_test (DAO.docValidator this) ("^" ++ DAO.type this ++ ":") s = true.
Proof.
  intros Hp Hl.
  pose proof (proj1 (passes_members _ _ _ _ Hl) Hp)
    as (Hpat & _ & _ & _ & _ & _ & Hreq).
  rewrite required_nil, !Forall_cons in Hreq. destruct Hreq as (Hid & _).
  by apply DocumentID_nil in Hpat as [?|?].
Qed.

(** [create]: nothing happened, or the one insert was sent and either
    rejected or answered with a copy of the document. *)
Lemma create_outcome this doc w :
  let r := DAO.create this doc w in
  (r.2 = w /\ exists e, r.1 = inl e) \/
  exists l ps,
    doc = VRef l /\ heap w !! l = Some (Object Plain ps) /\
    passes this (heap w) doc = true /\
    field (heap w) doc "_rev" = VUndefined /\
    let c := Insert doc (Some (Object Plain ps)) in
    match db_insert (DAO.db this) (calls w) doc (Some (Object Plain ps)) with
    | inl e => r = (inl (StoreError e), logged w c)
    | inr res =>
        r = (inr (VRef (fresh (dom (heap w)))),
             allocated (logged w c) (ps ∪ {[ "_rev" := res_rev res ]}))
    end.
Proof.
  intros r. subst r. rewrite create_run.
  destruct (is_object (heap w) doc); cbn [negb]; [|left; eauto].
  destruct (passes this (heap w) doc) eqn:Hp; cbn [negb]; [|left; eauto].
  case_bool_decide as Hrev; [left; eauto|].
  destruct (passes_plain _ _ _ Hp) as (l & ps & -> & Hl).
  right. exists l, ps. split; [done|]. split; [done|]. split; [done|].
  split; [by destruct (decide (field (heap w) (VRef l) "_rev" = VUndefined))|].
  cbv zeta. rewrite run_insert. cbv zeta. rewrite Hl.
  destruct (db_insert _ _ _ _) as [e|res]; [done|].
  erewrite run_own_props by (cbn [heap logged]; exact Hl).
  reflexivity.
Qed.

(** [update]: likewise, the revision of the copy being the new one. *)
Lemma update_outcome this id doc w :
  let r := DAO.update this id doc w in
  (r.2 = w /\ exists e, r.1 = inl e) \/
  exists l ps,
    doc = VRef l /\ heap w !! l = Some (Object Plain ps) /\
    passes this (heap w) doc = true /\
    nonempty_string id = true /\
    field (heap w) doc "_id" = VStr (DAO.qualified this id) /\
    let c := Insert doc (Some (Object Plain ps)) in
    match db_insert (DAO.db this) (calls w) doc (Some (Object Plain ps)) with
    | inl e => r = (inl (StoreError e), logged w c)
    | inr res =>
        r = (inr (VRef (fresh (dom (heap w)))),
             allocated (logged w c) (<[ "_rev" := res_rev res ]> ps))
    end.
Proof.
  intros r. subst r. rewrite update_run.
  destruct (nonempty_string id); cbn [negb]; [|left; eauto].
  destruct (is_object (heap w) doc); cbn [negb]; [|left; eauto].
  destruct (passes this (heap w) doc) eqn:Hp; cbn [negb]; [|left; eauto].
  case_bool_decide as Hid; cbn [negb]; [|left; eauto].
  case_bool_decide as Hrev; cbn [negb]; [|left; eauto].
  destruct (passes_plain _ _ _ Hp) as (l & ps & -> & Hl).
  right. exists l, ps. do 5 (split; [done|]).
  cbv zeta. rewrite run_insert. cbv zeta. rewrite Hl.
  destruct (db_insert _ _ _ _) as [e|res]; [done|].
  erewrite run_own_props by (cbn [heap logged]; exact Hl).
  reflexivity.
Qed.

(** [delete]: nothing happened, or the one destroy was sent, for the
    document's own id and revision, and its answer is the outcome. *)
Lemma delete_outcome this id doc w :
  let r := DAO.delete this id doc w in
  (r.2 = w /\ exists e, r.1 = inl e) \/
  exists s rev,
    id = VStr s /\ s <> "" /\
    field (heap w) doc "_id" = VStr (DAO.type this ++ ":" ++ s) /\
    field (heap w) doc "_rev" = rev /\ truthy rev = true /\
    let c := Destroy (DAO.type this ++ ":" ++ s) rev in
    r.2 = logged w c /\
    r.1 = match db_destroy (DAO.db this) (calls w)
                  (DAO.type this ++ ":" ++ s) rev with
          | inl e => inl (StoreError e)
          | inr ack => inr ack
          end.
Proof.
  intros r. subst r.
  assert ((forall l, doc = VRef l -> heap w !! l = None) ->
          (DAO.delete this id doc w).2 = w /\
          exists e, (DAO.delete this id doc w).1 = inl e) as Hno.
  { intros Hdoc. split; [by apply delete_no_object|]. unfold DAO.delete.
    rewrite run_typeof_is, typeof_nonempty_string, run_assert.
    destruct (nonempty_string id); [|eauto].
    rewrite run_typeof_is, typeof_object, run_assert.
    destruct (is_object (heap w) doc); [|eauto].
    destruct doc as [| | | | |l]; try (cbn; eauto; fail).
    unfold mbind, M_bind, get_prop. rewrite (Hdoc l eq_refl). eauto. }
  destruct doc as [| | | | |l]; try (left; apply Hno; intros ? [=]; fail).
  destruct (heap w !! l) as [o|] eqn:Hl;
    [|left; apply Hno; by intros ? [= <-]].
  clear Hno.
  rewrite (delete_run _ _ _ _ _ Hl).
  destruct (nonempty_string id) eqn:Hid; cbn [negb]; [|left; eauto].
  destruct (is_object (heap w) (VRef l)); cbn [negb]; [|left; eauto].
  destruct (nonempty_string (field _ _ "_id")); cbn [negb]; [|left; eauto].
  case_bool_decide as Hq; cbn [negb]; [|left; eauto].
  destruct (truthy (field _ _ "_rev")) eqn:Hrev; cbn [negb]; [|left; eauto].
  apply nonempty_string_inv in Hid as (s & -> & Hs).
  right. exists s, (field (heap w) (VRef l) "_rev").
  rewrite Hq. cbn [string_value DAO.qualified]. unfold DAO.qualified.
  cbn [string_value]. do 5 (split; [done|]).
  unfold store_call. by destruct (db_destroy _ _ _ _).
Qed.

Lemma create_sent this doc w :
  let r := DAO.create this doc w in
  (r.2 = w /\ exists e, r.1 = inl e) \/ exists c, sent this w r c.
Proof.
  intros r. pose proof (create_outcome this doc w) as H0. cbv zeta in H0.
  destruct H0 as [?|(l & ps & -> & Hl & Hp & _ & H)]; [by left|].
  right. exists (Insert (VRef l) (Some (Object Plain ps))). split.
  - destruct (passes_id _ _ _ _ Hp Hl) as (s & ? & ?). by exists l, ps, s.
  - cbv zeta in H. cbn [rejection]. fold r in H.
    destruct (db_insert _ _ _ _); [done|]. right. rewrite H. by eexists.
Qed.

Lemma update_sent this id doc w :
  let r := DAO.update this id doc w in
  (r.2 = w /\ exists e, r.1 = inl e) \/ exists c, sent this w r c.
Proof.
  intros r. pose proof (update_outcome this id doc w) as H0. cbv zeta in H0.
  destruct H0 as [?|(l & ps & -> & Hl & Hp & _ & _ & H)]; [by left|].
  right. exists (Insert (VRef l) (Some (Object Plain ps))). split.
  - destruct (passes_id _ _ _ _ Hp Hl) as (s & ? & ?). by exists l, ps, s.
  - cbv zeta in H. cbn [rejection]. fold r in H.
    destruct (db_insert _ _ _ _); [done|]. right. rewrite H. by eexists.
Qed.

Lemma delete_sent this id doc w :
  let r := DAO.delete this id doc w in
  (r.2 = w /\ exists e, r.1 = inl e) \/ exists c, sent this w r c.
Proof.
  intros r. pose proof (delete_outcome this id doc w) as H0. cbv zeta in H0.
  destruct H0 as [?|(s & rev & -> & Hs & _ & _ & _ & H)]; [by left|].
  right. cbv zeta in H. fold r in H. destruct H as [H2 H1].
  exists (Destroy (DAO.type this ++ ":" ++ s) rev).
  split; [by exists s|]. cbn [rejection].
  destruct (db_destroy _ _ _ _); [|by left].
  destruct r as [r1 r2]. cbn [fst snd] in *. by subst.
Qed.

(** The three queries on a key: nothing happened, or the one query went
    out. *)
Lemma view_sent {A} this v opts (k : list row -> M A) w :
  (forall rows w1, (k rows w1).2 = w1) ->
  let r := (DAO.partitionedView this (VStr v) opts ≫= k) w in
  sent this w r (PartitionedView (DAO.type this) (DAO.type this) v opts).
Proof.
  intros Hk r. subst r. split; [done|]. cbn [rejection].
  rewrite run_partitionedView. cbv zeta.
  destruct (db_partitionedView _ _ _ _ _ _); [done|]. left. apply Hk.
Qed.

Lemma findOne_sent this v key w :
  let r := DAO.findOne this v key w in
  (r.2 = w /\ exists e, r.1 = inl e) \/ exists c, sent this w r c.
Proof.
  intros r. subst r. unfold DAO.findOne.
  rewrite run_typeof_is, typeof_nonempty_string, run_assert.
  destruct (nonempty_string v) eqn:Hv; [|left; eauto].
  apply nonempty_string_inv in Hv as (s & -> & _).
  rewrite run_assert. destruct (bool_decide _); [|left; eauto].
  right. eexists. apply view_sent.
  intros rows w1. rewrite run_assert. by destruct (bool_decide _).
Qed.

Lemma exists_sent this v key w :
  let r := DAO.exists_ this v key w in
  (r.2 = w /\ exists e, r.1 = inl e) \/ exists c, sent this w r c.
Proof.
  intros r. subst r. unfold DAO.exists_.
  rewrite run_typeof_is, typeof_nonempty_string, run_assert.
  destruct (nonempty_string v) eqn:Hv; [|left; eauto].
  apply nonempty_string_inv in Hv as (s & -> & _).
  rewrite run_assert. destruct (bool_decide _); [|left; eauto].
  right. eexists. by apply view_sent.
Qed.

Lemma count_sent this v key w :
  let r := DAO.count this v key w in
  (r.2 = w /\ exists e, r.1 = inl e) \/ exists c, sent this w r c.
Proof.
  intros r. subst r. unfold DAO.count.
  rewrite run_typeof_is, typeof_nonempty_string, run_assert.
  destruct (nonempty_string v) eqn:Hv; [|left; eauto].
  apply nonempty_string_inv in Hv as (s & -> & _).
  right. eexists. by apply view_sent.
Qed.

Lemma retrieve_sent this id w :
  let r := DAO.retrieve this id w in
  (r.2 = w /\ exists e, r.1 = inl e) \/
  exists s, id = VStr s /\ s <> "" /\
            r.2 = logged w (Get (DAO.type this ++ ":" ++ s)).
Proof.
  intros r. subst r. rewrite retrieve_run.
  destruct (nonempty_string id) eqn:Hid; cbn [negb]; [|left; eauto].
  right. apply nonempty_string_inv in Hid as (s & -> & Hs). by exists s.
Qed.

(** [list] up to its store call. *)
Lemma list_run this v opts w :
  let w0 := defaulted w opts in
  let o0 := match opts with
            | VUndefined => VRef (fresh (dom (heap w)))
            | _ => opts
            end in
  let sent_opts := members_of (heap w0) o0 ∪ list_defaults in
  DAO.list_ this v opts w =
  if negb (nonempty_string v)
  then (inl (AssertionError "invalid view"), w0)
  else if negb (is_object (heap w0) o0)
  then (inl (AssertionError "invalid options"), w0)
  else match o0 with
       | VRef l =>
           match heap w0 !! l with
           | None => (inl TypeError, w0)
           | Some _ =>
               (rows ← DAO.partitionedView this v (ViewOpts sent_opts None);
                mret (list_entries sent_opts rows)) w0
           end
       | _ => (rows ← DAO.partitionedView this v (ViewOpts sent_opts None);
               mret (list_entries sent_opts rows)) w0
       end.
Proof.
  intros w0 o0 sent_opts. unfold DAO.list_. rewrite run_bind.
  assert ((match opts with
           | VUndefined => new_object ∅
           | _ => mret opts
           end : M value) w = (inr o0, w0)) as ->
    by (subst o0 w0; by destruct opts).
  rewrite run_typeof_is, typeof_nonempty_string, run_assert.
  destruct (nonempty_string v); [cbn [negb]|done].
  rewrite run_typeof_is, typeof_object, run_assert.
  destruct (is_object (heap w0) o0) eqn:Hobj; [cbn [negb]|done].
  subst sent_opts. unfold members_of.
  destruct o0 as [| | | | |l]; try done.
  destruct (heap w0 !! l) as [o|] eqn:Hl.
  - by rewrite (run_own_props _ _ _ _ Hl).
  - unfold mbind at 1, M_bind at 1, own_props. by rewrite Hl.
Qed.

Lemma list_sent this v opts w :
  let r := DAO.list_ this v opts w in
  let w0 := defaulted w opts in
  (r.2 = w0 /\ exists e, r.1 = inl e) \/ exists c, sent this w0 r c.
Proof.
  intros r w0. subst r. rewrite list_run. fold w0.
  destruct (nonempty_string v) eqn:Hv; cbn [negb]; [|left; eauto].
  apply nonempty_string_inv in Hv as (s & -> & _).
  destruct (is_object _ _); cbn [negb]; [|left; eauto].
  set (o0 := match opts with VUndefined => _ | _ => opts end).
  destruct o0 as [| | | | |l];
    try (right; eexists; by apply view_sent).
  destruct (heap w0 !! l); [|left; eauto].
  right. eexists. by apply view_sent.
Qed.

Lemma footprint_refl this w : footprint this w w.
Proof.
  split; [done|]. split; [done|]. exists [].
  split; [by rewrite app_nil_r|]. split; [cbn; lia|constructor].
Qed.

Lemma allocated_heap w ps : heap w ⊆ heap (allocated w ps).
Proof.
  unfold allocated. cbn [heap]. apply insert_subseteq.
  apply not_elem_of_dom, is_fresh.
Qed.

Lemma footprint_sent {A} this w (r : (error + A) * world) c :
  sent this w r c -> footprint this w r.2.
Proof.
  intros [Hc H].
  assert (r.2 = logged w c \/ exists ps, r.2 = allocated (logged w c) ps)
    as [->| [ps ->]].
  { destruct (rejection _ _ _); [left; by rewrite H|done]. }
  - split; [done|]. split; [done|]. exists [c]. by repeat constructor.
  - split; [apply (allocated_heap (logged w c))|]. split; [done|].
    exists [c]. by repeat constructor.
Qed.

Lemma footprint_quiet_or_sent {A} this w (r : (error + A) * world) :
  (r.2 = w /\ exists e, r.1 = inl e) \/ (exists c, sent this w r c) ->
  footprint this w r.2.
Proof.
  intros [[-> _]|[c Hc]]; [apply footprint_refl|by eapply footprint_sent].
Qed.

(** X7. No operation of an instance changes or drops an object of the heap
    (the documents and options it is given are never written to), none reads
    the clock, and each makes at most one store call, which stays within the
    type of the instance: a read or a delete names [type:id], a view query
    has the type as partition and design document, and an inserted document
    carries an [_id] the pattern of the schema accepts. *)
Theorem operations_footprint this w :
  (forall doc, footprint this w (DAO.create this doc w).2) /\
  (forall id, footprint this w (DAO.retrieve this id w).2) /\
  (forall id doc, footprint this w (DAO.update this id doc w).2) /\
  (forall id doc, footprint this w (DAO.delete this id doc w).2) /\
  (forall v opts, footprint this w (DAO.list_ this v opts w).2) /\
  (forall v key, footprint this w (DAO.findOne this v key w).2) /\
  (forall v key, footprint this w (DAO.exists_ this v key w).2) /\
  (forall v key, footprint this w (DAO.count this v key w).2).
Proof.
  repeat apply conj; intros.
  - apply footprint_quiet_or_sent, create_sent.
  - destruct (retrieve_sent this id w) as [[-> _]|(s & -> & Hs & ->)];
      [apply footprint_refl|].
    split; [done|]. split; [done|]. eexists [_]. split; [done|].
    split; [done|]. repeat constructor. by exists s.
  - apply footprint_quiet_or_sent, update_sent.
  - apply footprint_quiet_or_sent, delete_sent.
  - pose proof (footprint_quiet_or_sent this _ _ (list_sent this v opts w))
      as (Hh & Hn & cs & Hc & Hcs).
    assert (heap w ⊆ heap (defaulted w opts) /\
            now (defaulted w opts) = now w /\
            calls (defaulted w opts) = calls w) as (Hh0 & Hn0 & Hc0).
    { destruct opts; try done. split; [apply allocated_heap|done]. }
    split; [by etrans|]. split; [congruence|]. exists cs. by rewrite <- Hc0.
  - apply footprint_quiet_or_sent, findOne_sent.
  - apply footprint_quiet_or_sent, exists_sent.
  - apply footprint_quiet_or_sent, count_sent.
Qed.

Lemma rethrown_quiet_or_sent {A} this w c e (r : (error + A) * world) :
  rejection (DAO.db this) (calls w) c = Some e ->
  (r.2 = w /\ exists e, r.1 = inl e) \/ (exists c, sent this w r c) ->
  rethrown w c e r.
Proof.
  intros Hrej H0 Hcalls. destruct H0 as [[Hw _]|[c0 [_ H]]].
  - rewrite Hw in Hcalls. apply (f_equal length) in Hcalls.
    rewrite length_app in Hcalls. cbn in Hcalls. lia.
  - assert (calls r.2 = (calls w ++ [c0])%list) as Hc0.
    { destruct (rejection _ _ c0); [by rewrite H|].
      by destruct H as [->|[ps ->]]. }
    rewrite Hcalls in Hc0. apply app_inj_tail in Hc0 as [_ <-].
    rewrite Hrej in H. by rewrite H.
Qed.

(** X8. A rejection of the store is not handled: when the one store call of
    [create], [update], [delete], [list], [findOne], [exists] or [count] is
    rejected, the operation throws that very rejection; [retrieve] does the
    same but for status 404, which it turns into [null]. *)
Theorem rejections_propagate this w c e :
  rejection (DAO.db this) (calls w) c = Some e ->
  (forall doc, rethrown w c e (DAO.create this doc w)) /\
  (forall id doc, rethrown w c e (DAO.update this id doc w)) /\
  (forall id doc, rethrown w c e (DAO.delete this id doc w)) /\
  (forall v opts, rethrown w c e (DAO.list_ this v opts w)) /\
  (forall v key, rethrown w c e (DAO.findOne this v key w)) /\
  (forall v key, rethrown w c e (DAO.exists_ this v key w)) /\
  (forall v key, rethrown w c e (DAO.count this v key w)) /\
  (forall id,
     calls (DAO.retrieve this id w).2 = (calls w ++ [c])%list ->
     (DAO.retrieve this id w).1 =
     if bool_decide (statusCode e = VNum (Int 404))
     then inr VNull
     else inl (StoreError e)).
Proof.
  intros Hrej. repeat apply conj; intros.
  - eapply rethrown_quiet_or_sent; [done|apply create_sent].
  - eapply rethrown_quiet_or_sent; [done|apply update_sent].
  - eapply rethrown_quiet_or_sent; [done|apply delete_sent].
  - assert (calls (defaulted w opts) = calls w) as Hc0 by (by destruct opts).
    intros Hcalls. rewrite <- Hc0 in Hcalls, Hrej.
    revert Hcalls. eapply rethrown_quiet_or_sent; [done|apply list_sent].
  - eapply rethrown_quiet_or_sent; [done|apply findOne_sent].
  - eapply rethrown_quiet_or_sent; [done|apply exists_sent].
  - eapply rethrown_quiet_or_sent; [done|apply count_sent].
  - revert H. rewrite retrieve_run.
    destruct (nonempty_string id); cbn [negb fst snd logged calls].
    + intros [_ <-]%app_inj_tail. cbn [rejection] in Hrej.
      destruct (db_get _ _ _); [|done]. by injection Hrej as ->.
    + intros H. apply (f_equal length) in H.
      rewrite length_app in H. cbn in H. lia.
Qed.

Lemma rejections_propagate_witness :
  (DAO.create contested (VRef 4%positive) Example.world0).1
  = inl (StoreError (StoreErr (VNum (Int 409)) "conflict")).
Proof.
  pose proof (rejections_propagate contested Example.world0
                (Insert (VRef 4%positive) (heap Example.world0 !! 4%positive))
                (StoreErr (VNum (Int 409)) "conflict") eq_refl) as [H _].
  apply H. vm_compute. reflexivity.
Defined.

(** ** [create], [update] and [delete] at the store *)

(** X9. When its checks pass and the store accepts the insert, [create] returns
    a new object and leaves the document it was given as it is. The new
    object has the members of the document; its [_rev] is the revision of
    the store when the document has no member [_rev], and stays [undefined]
    when the document has one that holds [undefined], since the document is
    spread over the revision. *)
Theorem create_returns_copy this l ps w res :
  heap w !! l = Some (Object Plain ps) ->
  passes this (heap w) (VRef l) = true ->
  field (heap w) (VRef l) "_rev" = VUndefined ->
  db_insert (DAO.db this) (calls w) (VRef l) (Some (Object Plain ps))
    = inr res ->
  let r := DAO.create this (VRef l) w in
  let copy := VRef (fresh (dom (heap w))) in
  r.1 = inr copy /\ copy <> VRef l /\
  heap r.2 !! l = Some (Object Plain ps) /\
  calls r.2 = (calls w ++ [Insert (VRef l) (Some (Object Plain ps))])%list /\
  (forall k, k <> "_rev" ->
     field (heap r.2) copy k = field (heap w) (VRef l) k) /\
  (ps !! "_rev" = None -> field (heap r.2) copy "_rev" = res_rev res) /\
  (ps !! "_rev" = Some VUndefined ->
   field (heap r.2) copy "_rev" = VUndefined).
Proof.
  intros Hl Hp Hrev Hres r copy. subst r copy.
  pose proof (create_outcome this (VRef l) w) as H. cbv zeta in H.
  destruct H as [[Hw [e He]]|(l0 & ps0 & [= <-] & Hl0 & _ & _ & H)].
  { exfalso. revert He. rewrite create_run, (passes_is_object _ _ _ Hp), Hp.
    cbn [negb]. rewrite bool_decide_eq_false_2 by (by intros []).
    rewrite run_insert. cbv zeta. rewrite Hl, Hres.
    by erewrite run_own_props by (cbn [heap logged]; exact Hl). }
  rewrite Hl in Hl0. injection Hl0 as <-. rewrite Hres in H. rewrite H.
  cbn [fst snd allocated logged heap calls].
  assert (fresh (dom (heap w)) <> l) as Hne.
  { intros Heq. pose proof (is_fresh (dom (heap w))) as Hf.
    rewrite Heq in Hf. apply Hf, elem_of_dom. eauto. }
  split; [done|]. split; [congruence|].
  split; [by rewrite lookup_insert_ne|]. split; [done|].
  unfold field. rewrite lookup_insert_eq, Hl. cbn [props].
  repeat apply conj.
  - intros k Hk. f_equal. rewrite lookup_union_l; [done|].
    by apply lookup_singleton_ne.
  - intros Hnone. by rewrite lookup_union_r, lookup_singleton_eq.
  - intros Hsome. by rewrite (lookup_union_Some_l _ _ _ _ Hsome).
Qed.

Lemma create_returns_copy_witness :
  (DAO.create Example.widget (VRef 4%positive) Example.world0).1
    = inr (VRef 5%positive) /\
  field (heap (DAO.create Example.widget (VRef 4%positive) Example.world0).2)
        (VRef 5%positive) "_rev" = VStr "1-967a00".
Proof.
  pose proof (create_returns_copy Example.widget 4%positive
                (list_to_map [("_id", VStr "WIDGET:test-1");
                              ("c_by", VStr "admin"); ("c_at", VNum (Int 1));
                              ("m_by", VStr "admin"); ("m_at", VNum (Int 1))])
                Example.world0 (InsertResponse (VStr "id") (VStr "1-967a00")))
    as H.
  cbv zeta in H.
  destruct H as (H1 & _ & _ & _ & _ & H2 & _);
    [vm_compute; reflexivity..|].
  split; [exact H1|]. apply H2. vm_compute. reflexivity.
Defined.

Lemma passes_new_rev this h h' l l' ps s :
  h !! l = Some (Object Plain ps) ->
  passes this h (VRef l) = true ->
  h' !! l' = Some (Object Plain (<["_rev" := VStr s]> ps)) ->
  (1 <= minLength_length s)%nat ->
  passes this h' (VRef l') = true.
Proof.
  intros Hl Hp Hl' Hs.
  pose proof (proj1 (passes_members _ _ _ _ Hl) Hp)
    as (Hid & _ & Hcby & Hcat & Hmby & Hmat & Hreq).
  apply (passes_members _ _ _ _ Hl'). cbv zeta.
  unfold required in *. cbn [flat_map] in *.
  rewrite lookup_insert_eq, !lookup_insert_ne by done.
  cbn [default from_option id].
  do 2 (split; [done || (apply NonEmptyString_nil; eauto)|]).
  by repeat split.
Qed.

(** X10. What [update] returns can be updated again: when the revision the
    store gave is a string that [minLength: 1] accepts (one with a code unit
    that is no low surrogate), the returned object passes the schema, carries
    the same [_id] and the new [_rev], and a second [update] with the same id
    sends it to the store. *)
Theorem update_result_updatable this id doc w v w' s :
  DAO.update this id doc w = (inr v, w') ->
  field (heap w') v "_rev" = VStr s -> (1 <= minLength_length s)%nat ->
  passes this (heap w') v = true /\
  field (heap w') v "_id" = VStr (DAO.qualified this id) /\
  (forall k, k <> "_rev" -> field (heap w') v k = field (heap w) doc k) /\
  exists body,
    calls (DAO.update this id v w').2 = (calls w' ++ [Insert v body])%list.
Proof.
  intros Hrun Hrev Hs.
  pose proof (update_outcome this id doc w) as H. cbv zeta in H.
  rewrite Hrun in H. cbn [fst snd] in H.
  destruct H as [[_ [e [=]]]|(l & ps & -> & Hl & Hp & Hid & Hq & H)].
  destruct (db_insert _ _ _ _) as [e|res]; [done|].
  injection H as -> ->.
  set (l' := fresh (dom (heap w))) in *.
  assert (l' <> l) as Hne.
  { intros Heq. pose proof (is_fresh (dom (heap w))) as Hf. fold l' in Hf.
    rewrite Heq in Hf. apply Hf, elem_of_dom. eauto. }
  cbn [allocated logged heap calls] in *. fold l' in Hrev |- *.
  assert (res_rev res = VStr s) as Hres.
  { unfold field in Hrev. rewrite lookup_insert_eq in Hrev.
    cbn [props] in Hrev. by rewrite lookup_insert_eq in Hrev. }
  rewrite Hres in *.
  set (h' := <[l' := Object Plain (<["_rev" := VStr s]> ps)]> (heap w)) in *.
  assert (h' !! l' = Some (Object Plain (<["_rev" := VStr s]> ps))) as Hl'
    by apply lookup_insert_eq.
  assert (forall k, k <> "_rev" ->
            field h' (VRef l') k = field (heap w) (VRef l) k) as Hsame.
  { intros k Hk. unfold field. rewrite Hl', Hl. cbn [props].
    by rewrite lookup_insert_ne. }
  assert (passes this h' (VRef l') = true) as Hp'
    by exact (passes_new_rev this (heap w) h' l l' ps s Hl Hp Hl' Hs).
  split; [done|]. split; [by rewrite Hsame|]. split; [done|].
  exists (Some (Object Plain (<["_rev" := VStr s]> ps))).
  rewrite update_run. unfold allocated, logged. cbn [heap calls now ticks].
  fold l'. fold h'.
  rewrite Hid, (passes_is_object _ _ _ Hp'), Hp'. cbn [negb].
  rewrite bool_decide_eq_true_2 by (by rewrite Hsame).
  rewrite bool_decide_eq_true_2 by (by rewrite Hrev). cbn [negb].
  rewrite run_insert. cbv zeta. cbn [heap calls]. rewrite Hl'.
  destruct (db_insert _ _ _ _); [done|].
  erewrite run_own_props by (cbn [heap logged]; exact Hl').
  reflexivity.
Qed.

Lemma update_result_updatable_witness :
  passes Example.widget
    (heap (DAO.update Example.widget (VStr "test-1") (VRef 3%positive)
             Example.world0).2)
    (VRef 5%positive) = true.
Proof.
  refine (proj1 (update_result_updatable Example.widget (VStr "test-1")
                   (VRef 3%positive) Example.world0 (VRef 5%positive)
                   (DAO.update Example.widget (VStr "test-1")
                      (VRef 3%positive) Example.world0).2
                   "1-967a00" _ _ _)).
  - vm_compute. reflexivity.
  - vm_compute. reflexivity.
  - vm_compute. lia.
Defined.

(** X11. [delete] does not validate the document: for an object whose [_id] is
    [type:id] and whose [_rev] is truthy, whatever else it holds, it sends
    one destroy with that id and that revision, and its outcome is the
    answer of the store as it is. *)
Theorem delete_destroys this s l o w :
  s <> "" -> heap w !! l = Some o -> kind_of o <> Function ->
  field (heap w) (VRef l) "_id" = VStr (DAO.type this ++ ":" ++ s) ->
  truthy (field (heap w) (VRef l) "_rev") = true ->
  let rev := field (heap w) (VRef l) "_rev" in
  let r := DAO.delete this (VStr s) (VRef l) w in
  r.2 = logged w (Destroy (DAO.type this ++ ":" ++ s) rev) /\
  r.1 = match db_destroy (DAO.db this) (calls w)
                (DAO.type this ++ ":" ++ s) rev with
        | inl e => inl (StoreError e)
        | inr ack => inr ack
        end.
Proof.
  intros Hs Hl Hk Hid Hrev rev r. subst rev r.
  rewrite (delete_run _ _ _ _ _ Hl), (nonempty_string_VStr _ Hs).
  rewrite (is_object_ref _ _ _ Hl Hk), Hid, Hrev. cbn [negb].
  assert (nonempty_string (VStr (DAO.type this ++ ":" ++ s)) = true) as ->.
  { apply nonempty_string_VStr. destruct (DAO.type this); discriminate. }
  cbn [negb]. rewrite bool_decide_eq_true_2 by done. cbn [negb string_value].
  unfold store_call. by destruct (db_destroy _ _ _ _).
Qed.

Lemma delete_destroys_witness :
  (DAO.delete Example.widget (VStr "test-1") (VRef 3%positive)
     Example.world0).1 = inr (VStr "2-eec205").
Proof.
  pose proof (delete_destroys Example.widget "test-1" 3%positive
                (Example.plain
                   [("_id", VStr "WIDGET:test-1"); ("_rev", VStr "1-123456789");
                    ("c_by", VStr "admin"); ("c_at", VNum (Int 1));
                    ("m_by", VStr "admin"); ("m_at", VNum (Int 1));
                    ("test", VStr "initial-value")])
                Example.world0) as H.
  cbv zeta in H.
  destruct H as [_ H];
    [discriminate | vm_compute; reflexivity | discriminate
    | vm_compute; reflexivity | vm_compute; reflexivity |].
  exact H.
Defined.

(** ** [list] *)

Lemma list_defaults_include_docs :
  truthy (default VUndefined (list_defaults !! "include_docs")) = true.
Proof. reflexivity. Qed.

Lemma list_entries_docs sent_opts rows :
  truthy (default VUndefined (sent_opts !! "include_docs")) = true ->
  list_entries sent_opts rows = map row_doc rows.
Proof. intros H. unfold list_entries. by rewrite H. Qed.

Lemma list_entries_values sent_opts rows :
  truthy (default VUndefined (sent_opts !! "include_docs")) = false ->
  list_entries sent_opts rows = map row_value rows.
Proof. intros H. unfold list_entries. by rewrite H. Qed.

(** X12. [list] hands the caller's options to the store, merged over its two
    defaults: every member the caller's object owns is sent as it is, also
    one the class does not know and also [reduce] and [include_docs], and the
    defaults [reduce: false] and [include_docs: true] stand in only for
    members the caller does not own. The entries returned are the documents
    of the rows when the [include_docs] that was sent is truthy and the
    values of the rows when it is not, one entry a row, in the order of the
    answer. *)
Theorem list_merges_options this s opts w :
  s <> "" -> is_object (heap w) opts = true ->
  (forall l, opts = VRef l -> is_Some (heap w !! l)) ->
  let given := members_of (heap w) opts in
  let sent_opts := given ∪ list_defaults in
  let r := DAO.list_ this (VStr s) opts w in
  r.2 = logged w (PartitionedView (DAO.type this) (DAO.type this) s
                    (ViewOpts sent_opts None)) /\
  (forall k x, given !! k = Some x -> sent_opts !! k = Some x) /\
  (forall k, given !! k = None -> sent_opts !! k = list_defaults !! k) /\
  forall rows,
    db_partitionedView (DAO.db this) (calls w) (DAO.type this) (DAO.type this)
      s (ViewOpts sent_opts None) = inr rows ->
    (truthy (default VUndefined (sent_opts !! "include_docs")) = true ->
     r.1 = inr (map row_doc rows)) /\
    (truthy (default VUndefined (sent_opts !! "include_docs")) = false ->
     r.1 = inr (map row_value rows)).
Proof.
  intros Hs Hobj Hheap given sent_opts r. subst r.
  assert (opts <> VUndefined) as Hdef by (by intros ->).
  rewrite list_run.
  assert (defaulted w opts = w) as -> by (by destruct opts).
  assert (match opts with
          | VUndefined => VRef (fresh (dom (heap w)))
          | _ => opts
          end = opts) as -> by (by destruct opts).
  rewrite (nonempty_string_VStr _ Hs), Hobj. cbn [negb].
  fold given. fold sent_opts.
  assert (match opts with
          | VRef l =>
              match heap w !! l with
              | None => (inl TypeError, w)
              | Some _ =>
                  (rows ← DAO.partitionedView this (VStr s)
                            (ViewOpts sent_opts None);
                   mret (list_entries sent_opts rows)) w
              end
          | _ => (rows ← DAO.partitionedView this (VStr s)
                          (ViewOpts sent_opts None);
                  mret (list_entries sent_opts rows)) w
          end
          = (rows ← DAO.partitionedView this (VStr s) (ViewOpts sent_opts None);
             mret (list_entries sent_opts rows)) w) as ->.
  { destruct opts as [| | | | |l]; try done.
    by destruct (Hheap l eq_refl) as [o ->]. }
  rewrite run_partitionedView. cbv zeta. repeat apply conj.
  - by destruct (db_partitionedView _ _ _ _ _ _).
  - intros k x Hk. subst sent_opts. by apply lookup_union_Some_l.
  - intros k Hk. subst sent_opts. by rewrite lookup_union_r.
  - intros rows ->. cbn [fst]. split; intros Hi.
    + by rewrite list_entries_docs.
    + by rewrite list_entries_values.
Qed.

Lemma list_merges_options_witness :
  let w := World (<[7%positive := Example.plain [("include_docs", VBool false);
                                                  ("skip", VNum (Int 1))]]>
                    (heap Example.world0)) 0 (fun _ => 0) [] in
  (DAO.list_ Example.widget (VStr "by-status") (VRef 7%positive) w).1
  = inr [VNum (Int 1); VNum (Int 1); VNum (Int 1)].
Proof.
  intros w.
  pose proof (list_merges_options Example.widget "by-status"
                (VRef 7%positive) w) as H.
  cbv zeta in H. destruct H as (_ & _ & _ & H).
  - discriminate.
  - vm_compute. reflexivity.
  - intros l [= <-]. vm_compute. eauto.
  - destruct (H _ eq_refl) as [_ H2]. rewrite H2; vm_compute; reflexivity.
Defined.

(** X13. Without options, and with [null] for options, [list] asks for
    [{reduce: false, include_docs: true}] and returns the documents of the
    rows, in the order of the answer. *)
Theorem list_defaults_to_documents this s opts w :
  s <> "" -> opts = VUndefined \/ opts = VNull ->
  let r := DAO.list_ this (VStr s) opts w in
  calls r.2 = (calls w ++ [PartitionedView (DAO.type this) (DAO.type this) s
                             (ViewOpts list_defaults None)])%list /\
  forall rows,
    db_partitionedView (DAO.db this) (calls w) (DAO.type this) (DAO.type this)
      s (ViewOpts list_defaults None) = inr rows ->
    r.1 = inr (map row_doc rows).
Proof.
  intros Hs Hopts r. subst r. rewrite list_run. cbv zeta.
  rewrite (nonempty_string_VStr _ Hs). cbn [negb].
  assert (members_of (heap (defaulted w opts))
            match opts with
            | VUndefined => VRef (fresh (dom (heap w)))
            | _ => opts
            end ∪ list_defaults = list_defaults) as ->.
  { destruct Hopts as [-> | ->]; cbn [defaulted members_of allocated heap].
    - rewrite lookup_insert_eq. cbn [props]. apply (left_id_L ∅ (∪)).
    - apply (left_id_L ∅ (∪)). }
  destruct Hopts as [-> | ->];
    unfold defaulted, allocated, logged; cbn [is_object heap negb];
    rewrite ?lookup_insert_eq; cbn [negb];
    rewrite run_partitionedView; cbv zeta; unfold logged; cbn [calls];
    (split; [by destruct (db_partitionedView _ _ _ _ _ _)|]);
    intros rows ->; cbn [fst];
    by rewrite list_entries_docs.
Qed.

Lemma list_defaults_to_documents_witness :
  (DAO.list_ Example.widget (VStr "by-status") VUndefined Example.world0).1
  = inr [Example.known "1"; Example.known "2"; Example.known "3"].
Proof.
  pose proof (list_defaults_to_documents Example.widget "by-status" VUndefined
                Example.world0) as H.
  cbv zeta in H. destruct H as [_ H]; [discriminate | by left |].
  exact (H _ eq_refl).
Defined.

(** ** Argument errors of the remaining operations *)

(** X14. [retrieve], [list], [exists] and [count] raise their argument errors
    before any store call, as the other operations do; and [list] turns down
    a view name that is no non-empty string with 'invalid view' and, after
    that, options that are given and are no object with 'invalid options'. *)
Theorem argument_errors_before_store_calls this :
  (forall id, before_store (DAO.retrieve this id)) /\
  (forall v opts, before_store (DAO.list_ this v opts)) /\
  (forall v key, before_store (DAO.exists_ this v key)) /\
  (forall v key, before_store (DAO.count this v key)) /\
  (forall v opts w,
     nonempty_string v = false ->
     (DAO.list_ this v opts w).1 = inl (AssertionError "invalid view")) /\
  (forall v opts w,
     nonempty_string v = true -> opts <> VUndefined ->
     is_object (heap w) opts = false ->
     DAO.list_ this v opts w = (inl (AssertionError "invalid options"), w)).
Proof.
  repeat apply conj.
  - intros id w e w'. rewrite retrieve_run.
    destruct (nonempty_string id); cbn [negb]; [|by intros [= <- <-]].
    intros [= He <-] (m & -> & _)%validation_error_inv. exfalso.
    destruct (db_get _ _ _); [|done]. by destruct (bool_decide _).
  - intros v opts w e w'. rewrite list_run.
    assert (calls (defaulted w opts) = calls w) as <- by (by destruct opts).
    destruct (nonempty_string v) eqn:Hv; cbn [negb]; [|by intros [= <- <-]].
    apply nonempty_string_inv in Hv as (s & -> & _).
    destruct (is_object _ _); cbn [negb]; [|by intros [= <- <-]].
    assert (late (rows ← DAO.partitionedView this (VStr s)
                    (ViewOpts (members_of (heap (defaulted w opts))
                                 match opts with
                                 | VUndefined => VRef (fresh (dom (heap w)))
                                 | _ => opts
                                 end ∪ list_defaults) None);
                  mret (list_entries
                          (members_of (heap (defaulted w opts))
                             match opts with
                             | VUndefined => VRef (fresh (dom (heap w)))
                             | _ => opts
                             end ∪ list_defaults) rows))) as Hlate.
    { apply late_bind; [apply late_store_call|]. intros. apply late_ret. }
    destruct (match opts with VUndefined => _ | _ => opts end)
      as [| | | | |l]; try (intros Hrun Hv; by destruct (Hlate _ _ _ Hrun)).
    destruct (heap (defaulted w opts) !! l).
    + intros Hrun Hv. by destruct (Hlate _ _ _ Hrun).
    + intros [= <- <-] (m & [=] & _)%validation_error_inv.
  - intros v key w e w'. unfold DAO.exists_.
    rewrite run_typeof_is, typeof_nonempty_string, run_assert.
    destruct (nonempty_string v); [|by intros [= <- <-]].
    rewrite run_assert. destruct (bool_decide _); [|by intros [= <- <-]].
    apply late_before_store, late_bind; [apply late_store_call|].
    intros. apply late_ret.
  - intros v key w e w'. unfold DAO.count.
    rewrite run_typeof_is, typeof_nonempty_string, run_assert.
    destruct (nonempty_string v); [|by intros [= <- <-]].
    apply late_before_store, late_bind; [apply late_store_call|].
    intros. apply late_ret.
  - intros v opts w Hv. by rewrite list_run, Hv.
  - intros v opts w Hv Hopts Hobj. rewrite list_run, Hv.
    assert (defaulted w opts = w) as -> by (by destruct opts).
    assert (match opts with
            | VUndefined => VRef (fresh (dom (heap w)))
            | _ => opts
            end = opts) as -> by (by destruct opts).
    by rewrite Hobj.
Qed.

Lemma argument_errors_before_store_calls_witness :
  DAO.list_ Example.widget (VStr "by-name") (VNum (Int 123)) Example.world0
  = (inl (AssertionError "invalid options"), Example.world0).
Proof.
  pose proof (argument_errors_before_store_calls Example.widget)
    as (_ & _ & _ & _ & _ & H).
  apply H; [reflexivity | discriminate | reflexivity].
Defined.

(** ** The three queries on a key, against one table *)

Lemma reduce_count_value rows opts :
  match reduce_count rows opts with
  | row :: _ => row_value row
  | [] => VNum (Int 0)
  end = VNum (Int (Z.of_nat (length (matching rows opts)))).
Proof. unfold reduce_count. by destruct (matching rows opts). Qed.

(** X15. Against a store that answers from a table of rows and reduces with
    [_count], the queries on a key agree: [count] returns the number of rows
    of the view that have the key, and [findOne] returns [null] when that
    number is 0, the document of the row when it is 1, and fails with
    NotUnique when it is 2 or more; without any key component, [count]
    returns the number of all rows of the view. *)
Theorem key_queries_agree this views s k w :
  s <> "" -> k <> [] -> answers_views (DAO.db this) views ->
  let rows := views (DAO.type this) (DAO.type this) s in
  let hits := filter (fun r => row_key r = k) rows in
  (DAO.count this (VStr s) k w).1
    = inr (VNum (Int (Z.of_nat (length hits)))) /\
  (DAO.count this (VStr s) [] w).1
    = inr (VNum (Int (Z.of_nat (length rows)))) /\
  match hits with
  | [] => (DAO.findOne this (VStr s) k w).1 = inr VNull
  | [row] => (DAO.findOne this (VStr s) k w).1 = inr (row_doc row)
  | _ :: _ :: _ => fails_with (DAO.findOne this (VStr s) k w) NotUnique
  end.
Proof.
  intros Hs Hk Hdb rows hits. repeat apply conj.
  - rewrite (count_run _ _ _ _ Hs), Hdb by done.
    change (truthy (option_of _ "reduce")) with true. cbv iota. cbn [fst].
    pose proof (reduce_count_value rows
                  (ViewOpts {[ "reduce" := VBool true ]}
                     (match k with [] => None | _ :: _ => Some k end))) as H.
    destruct (reduce_count _ _); rewrite H; by destruct k.
  - rewrite (count_run _ _ _ _ Hs), Hdb by done.
    change (truthy (option_of _ "reduce")) with true. cbv iota. cbn [fst].
    pose proof (reduce_count_value rows
                  (ViewOpts {[ "reduce" := VBool true ]} None)) as H.
    by destruct (reduce_count _ _); rewrite H.
  - rewrite (findOne_run _ _ _ _ Hs Hk), Hdb by done.
    change (truthy (option_of _ "reduce")) with false. cbv iota.
    rewrite select_two_hits. fold rows. fold hits.
    destruct hits as [|r1 [|r2 rest]]; [done|done|fails].
Qed.

Lemma key_queries_agree_witness :
  (DAO.count Example.widget (VStr "by-status") [VStr "ACTIVE"]
     Example.world0).1 = inr (VNum (Int 2)) /\
  (DAO.count Example.widget (VStr "by-status") [] Example.world0).1
    = inr (VNum (Int 3)).
Proof.
  pose proof (key_queries_agree Example.widget Example.views "by-status"
                [VStr "ACTIVE"] Example.world0) as H.
  cbv zeta in H.
  destruct H as (H1 & H2 & _);
    [discriminate | discriminate | by intros cs p dd v opts _ |].
  split; [exact H1 | exact H2].
Defined.

(** ** The constructor *)

Lemma typeof_function h v :
  String.eqb (typeof h v) "function" = is_function h v.
Proof.
  destruct v; try reflexivity. cbn [typeof is_function].
  destruct (h !! l) as [[[] ?]|]; reflexivity.
Qed.

Lemma typeof_string h v :
  String.eqb (typeof h v) "string" = true <-> exists s, v = VStr s.
Proof.
  split; [|by intros [s ->]].
  destruct v; try discriminate; [eauto|]. cbn [typeof].
  by destruct (h !! l) as [[[] ?]|].
Qed.

(** X16. [new DAO(type, db)] checks, in this order, that [type] is a string
    ('bad dao type name'), that [db] is an object ('bad db type') and that
    its member [replicate] is a function ('bad db instance'); [null] for
    [db] passes the second check and gives a TypeError at the member read. It
    makes an instance exactly when the three checks pass, also for the
    empty type name, which no check excludes; the instance has the given
    type, and nothing is changed and no store call is made either way. *)
Theorem constructor_accepts type db handle engine w :
  let r := DAO.constructor type db handle engine w in
  r.2 = w /\
  ((forall s, type <> VStr s) ->
   r.1 = inl (AssertionError "bad dao type name")) /\
  (forall s, type = VStr s ->
     (is_object (heap w) db = false ->
      r.1 = inl (AssertionError "bad db type")) /\
     (db = VNull -> r.1 = inl TypeError) /\
     (forall l o,
        db = VRef l -> heap w !! l = Some o -> kind_of o <> Function ->
        if is_function (heap w) (field (heap w) db "replicate")
        then r.1 = inr {| DAO.type := s; DAO.db := handle;
                          DAO.docValidator := engine |}
        else r.1 = inl (AssertionError "bad db instance"))).
Proof.
  intros r. subst r. unfold DAO.constructor.
  rewrite run_typeof_is, run_assert.
  destruct (String.eqb (typeof (heap w) type) "string") eqn:Hty.
  2: { split; [done|]. split; [done|]. intros s ->. discriminate. }
  apply typeof_string in Hty as [s0 ->].
  rewrite run_typeof_is, typeof_object, run_assert.
  destruct (is_object (heap w) db) eqn:Hobj.
  2: { split; [done|]. split; [by intros H; destruct (H s0)|].
       intros s [= <-]. split; [done|]. split; [by intros ->|].
       intros l o -> Hl Hk. by rewrite (is_object_ref _ _ _ Hl Hk) in Hobj. }
  destruct db as [| | | | |l]; try discriminate.
  { split; [done|]. split; [by intros H; destruct (H s0)|].
    intros s [= <-]. split; [done|]. split; [done|]. by intros l o [=]. }
  destruct (heap w !! l) as [o|] eqn:Hl.
  2: { unfold mbind at 1, M_bind at 1, get_prop. rewrite Hl.
       split; [done|]. split; [by intros H; destruct (H s0)|].
       intros s [= <-]. split; [done|]. split; [done|].
       intros l0 o0 [= <-] Hl0. by rewrite Hl in Hl0. }
  rewrite (field_get_prop _ _ _ _ _ Hl), run_typeof_is, typeof_function.
  rewrite run_assert.
  split; [by destruct (is_function _ _)|].
  split; [by intros H; destruct (H s0)|].
  intros s [= <-]. split; [done|]. split; [done|].
  intros l0 o0 [= <-] _ _. by destruct (is_function _ _).
Qed.

Lemma constructor_accepts_witness :
  let w := World {[ 1%positive := Example.plain [("replicate", VRef 2%positive)];
                    2%positive := Object Function ∅ ]} 0 (fun _ => 0) [] in
  (DAO.constructor (VStr "") (VRef 1%positive) Example.couch
     Example.prefix_engine w).1
  = inr {| DAO.type := ""; DAO.db := Example.couch;
           DAO.docValidator := Example.prefix_engine |}.
Proof.
  intros w.
  pose proof (constructor_accepts (VStr "") (VRef 1%positive) Example.couch
                Example.prefix_engine w) as H.
  cbv zeta in H. destruct H as (_ & _ & H).
  destruct (H "" eq_refl) as (_ & _ & H1).
  exact (H1 1%positive (Example.plain [("replicate", VRef 2%positive)])
            eq_refl eq_refl ltac:(discriminate)).
Defined.
